(** * Framework cost calculator

    A shallow embedding of [cost_calculator.py] (the cost engine, the
    comparator and the migration estimator), of the [ROIAnalyzer] of
    [roi_analyzer.py] and of the [ScenarioGenerator] of
    [generate_scenarios.py].

    Numbers.  The Python code computes on [int] and [float].  Integers are
    [Z].  The float operations the code uses are collected in the class
    [PyFloat], and every function of the program is written once, over that
    class.  The class has two instances:

    - [Q_PyFloat]: exact rational arithmetic, where [round(x, n)] rounds the
      exact value half-to-even at the n-th decimal.  The general theorems
      are proved for this instance.
    - [b64_PyFloat]: IEEE-754 binary64 on Rocq's primitive floats, with
      decimal literals, int-to-float conversion and [round(x, n)] correctly
      rounded as in CPython.  It is used to evaluate the program on concrete
      inputs, so that every concrete value stated below for the exact
      instance is also checked on the machine arithmetic.

    Exceptions.  A Python call either returns or raises; [outcome] records
    which, and the functions are written in the corresponding monad.  The
    only operation of the cost engine that can raise is [/]; the two layers
    above it also raise [ValueError], [KeyError] and [IndexError], and their
    functions return a [result]. *)

From Stdlib Require Import ZArith QArith Qround Qabs Qpower Lqa Lia List Bool.
From Stdlib Require Import String Ascii Permutation Sorted DecimalString.
From Stdlib Require Import Floats.PrimFloat Floats.SpecFloat Floats.FloatOps.
Import ListNotations.

Set Implicit Arguments.

(** ** Outcomes of a Python call *)

Inductive exn : Type :=
| ZeroDivisionError.

Inductive outcome (A : Type) : Type :=
| Returns (a : A)
| Raises (e : exn).

Arguments Returns {A} a.
Arguments Raises {A} e.

Definition bind {A B : Type} (o : outcome A) (k : A -> outcome B) : outcome B :=
  match o with
  | Returns a => k a
  | Raises e => Raises e
  end.

Declare Scope py_scope.
Delimit Scope py_scope with py.

Notation "x <- c ;; k" := (bind c (fun x => k))
  (at level 61, c at next level, right associativity) : py_scope.

(** ** The float interface *)

Class PyFloat (F : Type) : Type := {
  of_int : Z -> F;             (* float(i), the implicit int -> float coercion *)
  dec : Z -> nat -> F;         (* the decimal literal  n / 10^k *)
  fadd : F -> F -> F;
  fsub : F -> F -> F;
  fmul : F -> F -> F;
  fquot : F -> F -> F;         (* x / y for a non-zero y *)
  fopp : F -> F;
  fzero : F -> bool;           (* y == 0, the test that makes [/] raise *)
  fltb : F -> F -> bool;       (* x < y *)
  round_nd : F -> nat -> F     (* round(x, ndigits) *)
}.

Notation "x + y" := (fadd x y) : py_scope.
Notation "x - y" := (fsub x y) : py_scope.
Notation "x * y" := (fmul x y) : py_scope.
Notation "- x" := (fopp x) : py_scope.

(** Python's [x / y]. *)
Definition pydiv {F} `{PyFloat F} (x y : F) : outcome F :=
  if fzero y then Raises ZeroDivisionError else Returns (fquot x y).

Notation "x / y" := (pydiv x y) : py_scope.

(** [a or b] on an [Optional[int]]: [None] and [0] are falsy. *)
Definition py_or (a : option Z) (b : Z) : Z :=
  match a with
  | Some t => if (t =? 0)%Z then b else t
  | None => b
  end.

(** ** Exact instance *)

(** Nearest integer, ties to the even one. *)
Definition round_half_even (x : Q) : Z :=
  let f := Qfloor x in
  match (x - inject_Z f ?= 1 # 2)%Q with
  | Lt => f
  | Gt => (f + 1)%Z
  | Eq => if Z.even f then f else (f + 1)%Z
  end.

Fixpoint ten_pow (k : nat) : positive :=
  match k with
  | O => 1
  | S k' => 10 * ten_pow k'
  end.

Definition Qround_nd (x : Q) (n : nat) : Q :=
  round_half_even (x * inject_Z (Zpos (ten_pow n))) # ten_pow n.

Definition Qltb (x y : Q) : bool := negb (Qle_bool y x).

#[export] Instance Q_PyFloat : PyFloat Q := {
  of_int := inject_Z;
  dec n k := n # ten_pow k;
  fadd := Qplus;
  fsub := Qminus;
  fmul := Qmult;
  fquot := Qdiv;
  fopp := Qopp;
  fzero x := Qeq_bool x 0;
  fltb := Qltb;
  round_nd := Qround_nd
}.

(** ** Binary64 instance *)

Definition b64_prec : Z := 53.
Definition b64_emax : Z := 1024.

(** The double nearest to an integer.  Python raises [OverflowError] for an
    integer beyond the range of the doubles; such integers are outside this
    instance. *)
Definition b64_of_int (z : Z) : float :=
  SF2Prim (binary_normalize b64_prec b64_emax z 0 false).

(** The double nearest to [n / d], for positive [n] and [d]. *)
Definition b64_of_ratio (s : bool) (n d : positive) : float :=
  SF2Prim (SFdiv b64_prec b64_emax (S754_finite s n 0) (S754_finite false d 0)).

Definition b64_dec (n : Z) (k : nat) : float :=
  match n with
  | Z0 => PrimFloat.zero
  | Zpos p => b64_of_ratio false p (ten_pow k)
  | Zneg p => b64_of_ratio true p (ten_pow k)
  end.

(** The exact value of the magnitude of a finite double [m * 2^e]. *)
Definition b64_magnitude (m : positive) (e : Z) : Q :=
  match e with
  | Z0 => Zpos m # 1
  | Zpos p => Zpos m * 2 ^ Zpos p # 1
  | Zneg p => Zpos m # 2 ^ p
  end.

(** [float.__round__] with [ndigits]: the decimal with [n] digits nearest to
    the exact value of [x] (ties to even), converted back to the nearest
    double; zeros, infinities and NaN are returned unchanged. *)
Definition b64_round_nd (x : float) (n : nat) : float :=
  match Prim2SF x with
  | S754_finite s m e =>
      match round_half_even (b64_magnitude m e * inject_Z (Zpos (ten_pow n))) with
      | Zpos p => b64_of_ratio s p (ten_pow n)
      | _ => SF2Prim (S754_zero s)
      end
  | _ => x
  end.

#[export] Instance b64_PyFloat : PyFloat float := {
  of_int := b64_of_int;
  dec := b64_dec;
  fadd := PrimFloat.add;
  fsub := PrimFloat.sub;
  fmul := PrimFloat.mul;
  fquot := PrimFloat.div;
  fopp := PrimFloat.opp;
  fzero x := PrimFloat.eqb x PrimFloat.zero;
  fltb := PrimFloat.ltb;
  round_nd := b64_round_nd
}.

(** ** Enumerations and static tables *)

Inductive ModelProvider : Type :=
| OPENAI_GPT4O
| OPENAI_GPT4O_MINI
| CLAUDE_35_SONNET
| LOCAL_LLM.

Inductive Framework : Type :=
| AUTOGEN
| CREWAI
| LANGCHAIN
| LANGGRAPH
| SEMANTIC_KERNEL.

(** [framework.value] *)
Definition value (f : Framework) : string :=
  match f with
  | AUTOGEN => "autogen"
  | CREWAI => "crewai"
  | LANGCHAIN => "langchain"
  | LANGGRAPH => "langgraph"
  | SEMANTIC_KERNEL => "semantic_kernel"
  end.

(** [for framework in Framework]: the members in declaration order. *)
Definition Framework_members : list Framework :=
  [AUTOGEN; CREWAI; LANGCHAIN; LANGGRAPH; SEMANTIC_KERNEL].

Section Program.

Context {F : Type} `{PyFloat F}.

Local Open Scope py_scope.

Record PricingData : Type := {
  input_cost : F;
  output_cost : F
}.

(** Average cost assuming 60% input, 40% output token ratio. *)
Definition average_cost (p : PricingData) : F :=
  (input_cost p * dec 6 1) + (output_cost p * dec 4 1).

Definition MODEL_PRICING (m : ModelProvider) : PricingData :=
  match m with
  | OPENAI_GPT4O => {| input_cost := dec 500 2; output_cost := dec 2000 2 |}
  | OPENAI_GPT4O_MINI => {| input_cost := dec 15 2; output_cost := dec 60 2 |}
  | CLAUDE_35_SONNET => {| input_cost := dec 300 2; output_cost := dec 1500 2 |}
  | LOCAL_LLM => {| input_cost := dec 5 2; output_cost := dec 5 2 |}
  end.

Record FrameworkData : Type := {
  avg_tokens_per_request : Z;
  efficiency_score : F;
  overhead_multiplier : F;
  description : string
}.

Definition FRAMEWORK_METADATA (f : Framework) : FrameworkData :=
  match f with
  | SEMANTIC_KERNEL =>
      {| avg_tokens_per_request := 1180 + 620;
         efficiency_score := dec 96 2;
         overhead_multiplier := dec 104 2;
         description := "Enterprise integration" |}
  | AUTOGEN =>
      {| avg_tokens_per_request := 1320 + 780;
         efficiency_score := dec 93 2;
         overhead_multiplier := dec 112 2;
         description := "Research & development" |}
  | CREWAI =>
      {| avg_tokens_per_request := 1450 + 850;
         efficiency_score := dec 90 2;
         overhead_multiplier := dec 115 2;
         description := "Multi-agent systems" |}
  | LANGCHAIN =>
      {| avg_tokens_per_request := 1580 + 950;
         efficiency_score := dec 87 2;
         overhead_multiplier := dec 116 2;
         description := "Flexible applications" |}
  | LANGGRAPH =>
      {| avg_tokens_per_request := 1680 + 1080;
         efficiency_score := dec 84 2;
         overhead_multiplier := dec 120 2;
         description := "Stateful workflows" |}
  end.

(** ** Cost engine *)

Definition calculate_cost_per_request
    (framework : Framework) (model : ModelProvider) (custom_tokens : option Z)
    : outcome F :=
  let framework_data := FRAMEWORK_METADATA framework in
  let pricing := MODEL_PRICING model in
  let total_tokens := py_or custom_tokens (avg_tokens_per_request framework_data) in
  let adjusted_tokens := of_int total_tokens * overhead_multiplier framework_data in
  let cost_per_million := average_cost pricing in
  per_token <- adjusted_tokens / of_int 1000000 ;;
  Returns (per_token * cost_per_million).

Definition _estimate_infrastructure_cost (requests_per_month : Z) : F :=
  if (requests_per_month <? 1000)%Z then of_int 35
  else if (requests_per_month <? 10000)%Z then
    of_int 85 + of_int (requests_per_month - 1000) * dec 1 2
  else if (requests_per_month <? 100000)%Z then
    of_int 320 + of_int (requests_per_month - 10000) * dec 5 3
  else
    of_int 850 + of_int (requests_per_month - 100000) * dec 2 3.

Definition _estimate_monitoring_cost (requests_per_month : Z) : F :=
  if (requests_per_month <? 1000)%Z then of_int 15
  else if (requests_per_month <? 10000)%Z then of_int 45
  else if (requests_per_month <? 100000)%Z then of_int 125
  else of_int 250.

Record CostBreakdown : Type := {
  api_cost : F;
  infrastructure_cost : F;
  monitoring_cost : F;
  total_cost : F;
  cost_per_request : F
}.

Definition calculate_monthly_cost
    (framework : Framework) (model : ModelProvider)
    (requests_per_month : Z) (custom_tokens : option Z)
    : outcome CostBreakdown :=
  cost_per_request <- calculate_cost_per_request framework model custom_tokens ;;
  let api_cost := cost_per_request * of_int requests_per_month in
  let infrastructure_cost := _estimate_infrastructure_cost requests_per_month in
  let monitoring_cost := _estimate_monitoring_cost requests_per_month in
  let total_cost := api_cost + infrastructure_cost + monitoring_cost in
  Returns {| api_cost := round_nd api_cost 2;
             infrastructure_cost := round_nd infrastructure_cost 2;
             monitoring_cost := round_nd monitoring_cost 2;
             total_cost := round_nd total_cost 2;
             cost_per_request := round_nd cost_per_request 4 |}.

(** ** Comparator *)

(** An entry of the comparison: the cost breakdown with the two keys
    [compare_frameworks] adds to it. *)
Record ComparisonEntry : Type := {
  costs : CostBreakdown;
  framework_name : string;
  entry_description : string
}.

(** A Python [dict] with string keys, in insertion order. *)
Definition dict (V : Type) : Type := list (string * V).

Fixpoint dict_set {V : Type} (d : dict V) (k : string) (v : V) : dict V :=
  match d with
  | [] => [(k, v)]
  | (k', v') :: d' =>
      if String.eqb k' k then (k', v) :: d' else (k', v') :: dict_set d' k v
  end.

(** [dict(items)] *)
Definition dict_of_items {V : Type} (items : list (string * V)) : dict V :=
  fold_left (fun d kv => dict_set d (fst kv) (snd kv)) items [].

(** [sorted(items, key=key)]: the stable sort.  Keys are compared with [<]
    only, and an element overtakes an earlier one only when its key is
    strictly smaller. *)
Fixpoint insert_by {A : Type} (key : A -> F) (x : A) (l : list A) : list A :=
  match l with
  | [] => [x]
  | y :: l' => if fltb (key y) (key x) then y :: insert_by key x l' else x :: y :: l'
  end.

Definition sorted {A : Type} (key : A -> F) (l : list A) : list A :=
  fold_right (insert_by key) [] l.

(** [s.replace("_", " ")] *)
Fixpoint replace_underscore (s : string) : string :=
  match s with
  | EmptyString => EmptyString
  | String c s' =>
      String (if Ascii.eqb c "_" then " "%char else c) (replace_underscore s')
  end.

Definition is_lower (c : ascii) : bool :=
  let n := nat_of_ascii c in (97 <=? n)%nat && (n <=? 122)%nat.

Definition upper (c : ascii) : ascii :=
  if is_lower c then ascii_of_nat (nat_of_ascii c - 32) else c.

(** [s.title()] on lower-case ASCII words: the first letter of each run of
    letters is upper-cased. *)
Fixpoint title_from (in_word : bool) (s : string) : string :=
  match s with
  | EmptyString => EmptyString
  | String c s' =>
      String (if in_word then c else upper c) (title_from (is_lower c) s')
  end.

Definition title (s : string) : string := title_from false s.

Definition compare_step
    (model : ModelProvider) (requests_per_month : Z) (custom_tokens : option Z)
    (results : outcome (dict ComparisonEntry)) (framework : Framework)
    : outcome (dict ComparisonEntry) :=
  results <- results ;;
  c <- calculate_monthly_cost framework model requests_per_month custom_tokens ;;
  Returns (dict_set results (value framework)
             {| costs := c;
                framework_name := title (replace_underscore (value framework));
                entry_description := description (FRAMEWORK_METADATA framework) |}).

Definition compare_frameworks
    (model : ModelProvider) (requests_per_month : Z) (custom_tokens : option Z)
    : outcome (dict ComparisonEntry) :=
  results <- fold_left (compare_step model requests_per_month custom_tokens)
               Framework_members (Returns (A:=dict ComparisonEntry) []) ;;
  Returns (dict_of_items (sorted (fun x => total_cost (costs (snd x))) results)).

(** ** Migration estimator *)

Record MigrationSavings : Type := {
  current_monthly_cost : F;
  new_monthly_cost : F;
  monthly_savings : F;
  annual_savings : F;
  savings_percentage : F
}.

Definition estimate_migration_savings
    (from_framework to_framework : Framework) (model : ModelProvider)
    (requests_per_month : Z) : outcome MigrationSavings :=
  current_cost <- calculate_monthly_cost from_framework model requests_per_month None ;;
  new_cost <- calculate_monthly_cost to_framework model requests_per_month None ;;
  let monthly_savings := total_cost current_cost - total_cost new_cost in
  let annual_savings := monthly_savings * of_int 12 in
  ratio <- monthly_savings / total_cost current_cost ;;
  let savings_percentage := ratio * of_int 100 in
  Returns {| current_monthly_cost := total_cost current_cost;
             new_monthly_cost := total_cost new_cost;
             monthly_savings := round_nd monthly_savings 2;
             annual_savings := round_nd annual_savings 2;
             savings_percentage := round_nd savings_percentage 1 |}.

End Program.

(** ** Net present value ([roi_analyzer.py])

    [_calculate_npv] raises the annual discount factor to the power [1/12].
    That value is irrational; Python takes it from the C library's [pow].
    The function is therefore taken as a parameter, [pow_frac], of the
    exact instance.  The integer powers [(1 + rate) ** month] are exact
    rational powers. *)

Section NPV.

Variable pow_frac : Q -> Q -> Q.

Local Open Scope py_scope.

(** [self.discount_rate = 0.10] *)
Definition discount_rate : Q := dec 10 2.

(** [range(a, b)] *)
Definition range (a b : Z) : list Z :=
  map (fun i => (a + Z.of_nat i)%Z) (seq 0 (Z.to_nat (b - a))).

(** One iteration of the loop body, on the running [npv]. *)
Definition npv_step (monthly_cash_flow monthly_discount_rate : Q)
    (npv : outcome Q) (month : Z) : outcome Q :=
  npv <- npv ;;
  discounted_cash_flow <-
    monthly_cash_flow / Qpower (of_int 1 + monthly_discount_rate) month ;;
  Returns (npv + discounted_cash_flow).

Definition _calculate_npv (initial_investment monthly_cash_flow : Q) (periods : Z)
    : outcome Q :=
  twelfth <- of_int 1 / of_int 12 ;;
  let monthly_discount_rate :=
    pow_frac (of_int 1 + discount_rate) twelfth - of_int 1 in
  let npv := - initial_investment in
  npv <- fold_left (npv_step monthly_cash_flow monthly_discount_rate)
           (range 1 (periods + 1)) (Returns npv) ;;
  Returns (round_nd npv 2).

(** The discounted-cash-flow formula in the specification's words:
    [r_m = (1 + 0.10)^(1/12) - 1] and
    [npv = -dev_cost + sum over m = 1..horizon of monthly_savings / (1 + r_m)^m]. *)
Definition r_m : Q := (pow_frac (1 + (10 # 100)) (1 / 12) - 1)%Q.

Fixpoint discounted_sum (monthly_savings : Q) (horizon : nat) : Q :=
  match horizon with
  | O => 0
  | S h =>
      (discounted_sum monthly_savings h
       + monthly_savings / Qpower (1 + r_m) (Z.of_nat (S h)))%Q
  end.

Definition dcf_npv (dev_cost monthly_savings : Q) (horizon : nat) : Q :=
  (- dev_cost + discounted_sum monthly_savings horizon)%Q.

End NPV.

(** ** Predicates used in the statements *)

(** [N] is a nearest integer of [x], and the even one when there are two. *)
Definition nearest_even (x : Q) (N : Z) : Prop :=
  ((inject_Z N - (1 # 2) < x /\ x < inject_Z N + (1 # 2)) \/
   ((x == inject_Z N - (1 # 2) \/ x == inject_Z N + (1 # 2)) /\ Z.even N = true))%Q.

(** [x] occurs before [y] in [l]. *)
Definition precedes {A : Type} (l : list A) (x y : A) : Prop :=
  exists l1 l2 l3, l = l1 ++ x :: l2 ++ y :: l3.

(** [a] is not after [b] in the order of the keys. *)
Definition key_le {A : Type} (key : A -> Q) (a b : A) : Prop :=
  (key a <= key b)%Q.

(** A token override that is absent or not negative. *)
Definition nonneg_tokens (custom_tokens : option Z) : Prop :=
  match custom_tokens with
  | Some t => (0 <= t)%Z
  | None => True
  end.

(** ** The analysis layer: [roi_analyzer.py]

    The functions below raise more than [ZeroDivisionError]: an unknown
    framework id is a [ValueError].  [result] is the outcome of a call of
    this layer; an [outcome] of the cost engine is lifted into it. *)

Inductive error : Type :=
| EngineError (e : exn)
| ValueError (message : string)
| KeyError (key : string)
| IndexError.

Inductive result (A : Type) : Type :=
| Ok (a : A)
| Error (e : error).

Arguments Ok {A} a.
Arguments Error {A} e.

Definition result_bind {A B : Type} (r : result A) (k : A -> result B) : result B :=
  match r with
  | Ok a => k a
  | Error e => Error e
  end.

Definition lift {A : Type} (o : outcome A) : result A :=
  match o with
  | Returns a => Ok a
  | Raises e => Error (EngineError e)
  end.

Declare Scope result_scope.
Delimit Scope result_scope with result.

Notation "x <~ c ;; k" := (result_bind c (fun x => k))
  (at level 61, c at next level, right associativity) : result_scope.

(** [d.get(k)] and [d.get(k, default)] *)
Fixpoint dict_get {V : Type} (d : dict V) (k : string) : option V :=
  match d with
  | [] => None
  | (k', v) :: d' => if String.eqb k' k then Some v else dict_get d' k
  end.

Definition dict_get_default {V : Type} (d : dict V) (k : string) (default : V) : V :=
  match dict_get d k with
  | Some v => v
  | None => default
  end.

(** [Framework(s)]: the member with value [s]. *)
Definition Framework_of_value (s : string) : result Framework :=
  match find (fun f => String.eqb (value f) s) Framework_members with
  | Some f => Ok f
  | None => Error (ValueError ("'" ++ s ++ "' is not a valid Framework")%string)
  end.

(** [model.value] *)
Definition ModelProvider_value (m : ModelProvider) : string :=
  match m with
  | OPENAI_GPT4O => "openai_gpt4o"
  | OPENAI_GPT4O_MINI => "openai_gpt4o_mini"
  | CLAUDE_35_SONNET => "claude_35_sonnet"
  | LOCAL_LLM => "local_llm"
  end.

(** [str(i)] for an [int] *)
Definition str_int (i : Z) : string := NilZero.string_of_int (Z.to_int i).

(** Thousands separators: a comma before every group of three digits,
    counted from the right. *)
Fixpoint group_thousands_rev (digits_rev : list ascii) (seen : nat) : list ascii :=
  match digits_rev with
  | [] => []
  | c :: rest =>
      match seen with
      | 3%nat => ","%char :: c :: group_thousands_rev rest 1
      | _ => c :: group_thousands_rev rest (S seen)
      end
  end.

Definition group_thousands (s : string) : string :=
  string_of_list_ascii
    (rev (group_thousands_rev (rev (list_ascii_of_string s)) 0)).

Fixpoint zeros (n : nat) : string :=
  match n with
  | O => EmptyString
  | S n' => String "0"%char (zeros n')
  end.

Definition zero_fill (width : nat) (s : string) : string :=
  (zeros (width - String.length s) ++ s)%string.

(** [format(x, '.<k>f')] and, with [grouping], [format(x, ',.<k>f')]: the
    decimal with [k] digits nearest to [x] (ties to even), with a minus sign
    for a negative [x]. *)
Definition format_f (grouping : bool) (k : nat) (x : Q) : string :=
  let scaled := round_half_even (Qabs x * inject_Z (Zpos (ten_pow k))) in
  let whole := str_int (scaled / Zpos (ten_pow k)) in
  let whole := if grouping then group_thousands whole else whole in
  let body :=
    match k with
    | O => whole
    | S _ => (whole ++ "." ++ zero_fill k (str_int (scaled mod Zpos (ten_pow k))))%string
    end in
  if Qltb x 0 then ("-" ++ body)%string else body.

(** [int(x)] for a float: truncation towards zero. *)
Definition int_of_float (x : Q) : Z := Z.quot (Qnum x) (Zpos (Qden x)).

Module ROI.

(** *** Tables of [ROIAnalyzer.__init__] *)

Section Generic.

Context {F : Type} `{PyFloat F}.

Local Open Scope py_scope.

Record DevelopmentCost : Type := {
  base_cost : Z;
  complexity_multiplier : F;
  description : string
}.

Definition development_costs : dict DevelopmentCost :=
  [ ("semantic_kernel"%string,
     {| base_cost := 25000; complexity_multiplier := dec 8 1;
        description := "Lower complexity due to enterprise tooling and documentation" |});
    ("autogen"%string,
     {| base_cost := 35000; complexity_multiplier := dec 11 1;
        description := "Medium complexity, advanced multi-agent features" |});
    ("crewai"%string,
     {| base_cost := 30000; complexity_multiplier := dec 10 1;
        description := "Balanced complexity and capabilities" |});
    ("langchain"%string,
     {| base_cost := 40000; complexity_multiplier := dec 13 1;
        description := "Higher complexity due to extensive customization needs" |});
    ("langgraph"%string,
     {| base_cost := 45000; complexity_multiplier := dec 14 1;
        description := "Highest complexity due to stateful workflow management" |}) ].

Definition risk_factors : dict F :=
  [ ("startup"%string, dec 13 1); ("growth"%string, dec 11 1);
    ("enterprise"%string, dec 9 1); ("research"%string, dec 12 1) ].

(** [min(a, b)]: the first argument unless the second is smaller. *)
Definition py_min (a b : F) : F := if fltb b a then b else a.

(** [calculate_development_cost]; the defaults of the source are
    [complexity_factor = 1.0] and [timeline_months = 6]. *)
Definition calculate_development_cost
    (framework : string) (team_size : Z) (complexity_factor : F)
    (timeline_months : Z) : result F :=
  match dict_get development_costs framework with
  | None => Error (ValueError ("Unknown framework: " ++ framework)%string)
  | Some base_data =>
      let base_cost := base_cost base_data in
      let team_multiplier :=
        if (team_size >? 3)%Z
        then dec 10 1 + of_int (team_size - 3) * dec 15 2
        else dec 10 1 in
      let team_multiplier := py_min team_multiplier (dec 20 1) in
      let complexity_cost :=
        of_int base_cost * complexity_multiplier base_data * complexity_factor in
      let timeline_multiplier :=
        if (timeline_months <? 4)%Z then dec 14 1
        else if (timeline_months <? 6)%Z then dec 12 1
        else if (timeline_months >? 12)%Z then dec 9 1
        else dec 10 1 in
      let total_cost := complexity_cost * team_multiplier * timeline_multiplier in
      Ok (round_nd total_cost 2)
  end.

Record CashFlowEntry : Type := {
  month : Z;
  entry_description : string;
  cash_flow : F;
  cumulative_cash_flow : F
}.

(** One iteration of the loop of [_generate_cash_flow_projection], on the
    list built so far and the running cumulative cash flow. *)
Definition cash_flow_step (initial_investment monthly_savings : F)
    (state : list CashFlowEntry * F) (month : Z) : list CashFlowEntry * F :=
  let (cash_flow, cumulative_cash_flow) := state in
  if (month =? 0)%Z then
    (cash_flow ++ [ {| month := 0;
                       entry_description := "Initial Development Investment";
                       cash_flow := - initial_investment;
                       cumulative_cash_flow := cumulative_cash_flow |} ],
     cumulative_cash_flow)
  else
    let cumulative_cash_flow := cumulative_cash_flow + monthly_savings in
    (cash_flow ++ [ {| month := month;
                       entry_description :=
                         ("Operational Savings Month " ++ str_int month)%string;
                       cash_flow := monthly_savings;
                       cumulative_cash_flow := cumulative_cash_flow |} ],
     cumulative_cash_flow).

Definition _generate_cash_flow_projection
    (initial_investment monthly_savings : F) (periods : Z) : list CashFlowEntry :=
  fst (fold_left (cash_flow_step initial_investment monthly_savings)
         (range 0 (periods + 1)) ([], - initial_investment)).

End Generic.

(** *** Recommendations and the comprehensive analysis (exact instance) *)

Record Recommendation : Type := {
  category : string;
  level : string;
  message : string;
  action : string
}.

Local Open Scope Q_scope.

Definition _generate_roi_recommendations
    (monthly_savings : Q) (payback_months : option Q) (roi_percentage npv : Q)
    : list Recommendation :=
  let recommendations := [] in
  (* Payback analysis *)
  let increases_costs :=
    {| category := "Financial Risk"; level := "high";
       message := "Migration will increase costs - not recommended from pure cost perspective";
       action := "Consider non-financial benefits or alternative frameworks" |} in
  let recommendations :=
    match payback_months with
    | None => recommendations ++ [increases_costs]
    | Some p =>
        if Qltb p 0 then recommendations ++ [increases_costs]
        else if Qle_bool p 12 then
          recommendations ++
          [ {| category := "Quick ROI"; level := "positive";
               message := ("Excellent payback period of " ++ format_f false 1 p ++ " months")%string;
               action := "Strong candidate for immediate migration" |} ]
        else if Qle_bool p 24 then
          recommendations ++
          [ {| category := "Moderate ROI"; level := "neutral";
               message := ("Reasonable payback period of " ++ format_f false 1 p ++ " months")%string;
               action := "Consider migration if strategic benefits align" |} ]
        else
          recommendations ++
          [ {| category := "Long Payback"; level := "cautionary";
               message := ("Long payback period of " ++ format_f false 1 p ++ " months")%string;
               action := "Evaluate strategic benefits beyond cost savings" |} ]
    end in
  (* NPV analysis *)
  let recommendations :=
    if Qltb 50000 npv then
      recommendations ++
      [ {| category := "High Value"; level := "positive";
           message := ("Excellent NPV of $" ++ format_f true 0 npv)%string;
           action := "Strong financial case for migration" |} ]
    else if Qltb 10000 npv then
      recommendations ++
      [ {| category := "Positive Value"; level := "positive";
           message := ("Positive NPV of $" ++ format_f true 0 npv)%string;
           action := "Financially beneficial migration" |} ]
    else if Qltb (-10000) npv then
      recommendations ++
      [ {| category := "Break Even"; level := "neutral";
           message := ("Near break-even NPV of $" ++ format_f true 0 npv)%string;
           action := "Consider strategic and operational benefits" |} ]
    else
      recommendations ++
      [ {| category := "Negative Value"; level := "cautionary";
           message := ("Negative NPV of $" ++ format_f true 0 npv)%string;
           action := "Migration not recommended based on financial analysis" |} ] in
  (* ROI percentage analysis *)
  let recommendations :=
    if Qltb 100 roi_percentage then
      recommendations ++
      [ {| category := "Excellent ROI"; level := "positive";
           message := ("Outstanding ROI of " ++ format_f false 1 roi_percentage ++ "%")%string;
           action := "Prioritize this migration project" |} ]
    else if Qltb 50 roi_percentage then
      recommendations ++
      [ {| category := "Good ROI"; level := "positive";
           message := ("Strong ROI of " ++ format_f false 1 roi_percentage ++ "%")%string;
           action := "Recommend proceeding with migration" |} ]
    else if Qltb 0 roi_percentage then
      recommendations ++
      [ {| category := "Positive ROI"; level := "neutral";
           message := ("Modest ROI of " ++ format_f false 1 roi_percentage ++ "%")%string;
           action := "Consider if strategic benefits justify investment" |} ]
    else recommendations in
  recommendations.

Record MigrationSummary : Type := {
  from_framework : string;
  to_framework : string;
  model : string;
  requests_per_month : Z;
  analysis_period_months : Z
}.

Record CostAnalysis : Type := {
  current_monthly_cost : Q;
  target_monthly_cost : Q;
  monthly_savings : Q;
  annual_savings : Q;
  development_cost : Q;
  risk_factor : Q
}.

Record RoiMetrics : Type := {
  payback_period_months : option Q;
  roi_percentage : Q;
  npv : Q;
  break_even_month : option Z;
  total_3_year_savings : Q
}.

Record Analysis : Type := {
  migration_summary : MigrationSummary;
  cost_analysis : CostAnalysis;
  roi_metrics : RoiMetrics;
  cash_flow_projection : list (CashFlowEntry (F:=Q));
  recommendations : list Recommendation;
  generated_at : string
}.

(** The entries of [_perform_sensitivity_analysis]; the two kinds of entry
    share key names, so each record has a name space of its own. *)
Module VolumeSensitivity.
Record t : Type := {
  volume : Z;
  volume_change : Q;
  payback_months : option Q;
  roi_percentage : Q;
  npv : Q
}.
End VolumeSensitivity.

Module ComplexitySensitivity.
Record t : Type := {
  complexity_factor : Q;
  development_cost : Q;
  payback_months : option Q;
  roi_percentage : Q
}.
End ComplexitySensitivity.

Record Sensitivity : Type := {
  volume_sensitivity : list VolumeSensitivity.t;
  complexity_sensitivity : list ComplexitySensitivity.t;
  key_insights : list string
}.

Section Analyzer.

(** The power [x ** (1/12)] of [_calculate_npv] and the reading of the
    clock, [datetime.now().isoformat()], are parameters. *)
Variable pow_frac : Q -> Q -> Q.
Variable now : string.

Local Open Scope result_scope.

(** [calculate_comprehensive_roi]; the defaults of the source are
    [team_size = 5], [timeline_months = 6], [analysis_period_months = 36],
    [complexity_factor = 1.0] and [risk_scenario = "growth"]. *)
Definition calculate_comprehensive_roi
    (current_framework target_framework : string) (model : ModelProvider)
    (requests_per_month team_size timeline_months analysis_period_months : Z)
    (complexity_factor : Q) (risk_scenario : string) : result Analysis :=
  current <~ Framework_of_value current_framework ;;
  current_costs <~ lift (calculate_monthly_cost current model requests_per_month None) ;;
  target <~ Framework_of_value target_framework ;;
  target_costs <~ lift (calculate_monthly_cost target model requests_per_month None) ;;
  dev_cost <~ calculate_development_cost
                target_framework team_size complexity_factor timeline_months ;;
  let risk_factor := dict_get_default risk_factors risk_scenario 1.0 in
  let adjusted_dev_cost := dev_cost * risk_factor in
  let monthly_savings := total_cost current_costs - total_cost target_costs in
  payback_months <~
    (if Qltb 0 monthly_savings
     then p <~ lift (pydiv adjusted_dev_cost monthly_savings) ;; Ok (Some p)
     else Ok None) ;;
  npv <~ lift (_calculate_npv pow_frac adjusted_dev_cost monthly_savings
                 analysis_period_months) ;;
  let total_savings := monthly_savings * inject_Z analysis_period_months in
  roi_percentage <~
    (if Qltb 0 adjusted_dev_cost
     then q <~ lift (pydiv (total_savings - adjusted_dev_cost) adjusted_dev_cost) ;;
          Ok (q * 100)
     else Ok 0) ;;
  let cash_flow :=
    _generate_cash_flow_projection adjusted_dev_cost monthly_savings
      analysis_period_months in
  let break_even_month :=
    match payback_months with
    | Some p =>
        if negb (Qeq_bool p 0) && Qltb 0 p
        then Some (int_of_float p + 1)%Z
        else None
    | None => None
    end in
  Ok {| migration_summary :=
          {| from_framework := current_framework;
             to_framework := target_framework;
             model := ModelProvider_value model;
             requests_per_month := requests_per_month;
             analysis_period_months := analysis_period_months |};
        cost_analysis :=
          {| current_monthly_cost := total_cost current_costs;
             target_monthly_cost := total_cost target_costs;
             monthly_savings := monthly_savings;
             annual_savings := monthly_savings * 12;
             development_cost := adjusted_dev_cost;
             risk_factor := risk_factor |};
        roi_metrics :=
          {| payback_period_months := payback_months;
             roi_percentage := roi_percentage;
             npv := npv;
             break_even_month := break_even_month;
             total_3_year_savings :=
               monthly_savings * inject_Z analysis_period_months |};
        cash_flow_projection := cash_flow;
        recommendations :=
          _generate_roi_recommendations monthly_savings payback_months
            roi_percentage npv;
        generated_at := now |}.

(** One iteration of the first loop of [_perform_sensitivity_analysis]: the
    analysis at [int(volume)] over 36 months with the default risk scenario,
    then the entry, whose [volume_change] divides by [base_requests]. *)
Definition volume_step
    (current_framework target_framework : string) (model : ModelProvider)
    (base_requests team_size timeline_months : Z) (complexity_factor : Q)
    (volume_analysis : result (list VolumeSensitivity.t)) (volume : Q)
    : result (list VolumeSensitivity.t) :=
  volume_analysis <~ volume_analysis ;;
  analysis <~ calculate_comprehensive_roi current_framework target_framework model
                (int_of_float volume) team_size timeline_months 36
                complexity_factor "growth" ;;
  change <~ lift (pydiv (volume - inject_Z base_requests) (inject_Z base_requests)) ;;
  Ok (volume_analysis ++
      [ {| VolumeSensitivity.volume := int_of_float volume;
           VolumeSensitivity.volume_change := change * 100;
           VolumeSensitivity.payback_months :=
             payback_period_months (roi_metrics analysis);
           VolumeSensitivity.roi_percentage := roi_percentage (roi_metrics analysis);
           VolumeSensitivity.npv := npv (roi_metrics analysis) |} ]).

(** One iteration of the second loop. *)
Definition complexity_step
    (current_framework target_framework : string) (model : ModelProvider)
    (base_requests team_size timeline_months : Z)
    (complexity_analysis : result (list ComplexitySensitivity.t)) (complexity : Q)
    : result (list ComplexitySensitivity.t) :=
  complexity_analysis <~ complexity_analysis ;;
  analysis <~ calculate_comprehensive_roi current_framework target_framework model
                base_requests team_size timeline_months 36 complexity "growth" ;;
  Ok (complexity_analysis ++
      [ {| ComplexitySensitivity.complexity_factor := complexity;
           ComplexitySensitivity.development_cost :=
             development_cost (cost_analysis analysis);
           ComplexitySensitivity.payback_months :=
             payback_period_months (roi_metrics analysis);
           ComplexitySensitivity.roi_percentage :=
             roi_percentage (roi_metrics analysis) |} ]).

(** [_perform_sensitivity_analysis]; the third volume is the [int]
    [base_requests] itself, on which [int()] is the identity. *)
Definition _perform_sensitivity_analysis
    (current_framework target_framework : string) (model : ModelProvider)
    (base_requests team_size timeline_months : Z) (complexity_factor : Q)
    : result Sensitivity :=
  let volume_scenarios :=
    [ inject_Z base_requests * 0.5;
      inject_Z base_requests * 0.8;
      inject_Z base_requests;
      inject_Z base_requests * 1.2;
      inject_Z base_requests * 1.5 ] in
  volume_analysis <~
    fold_left (volume_step current_framework target_framework model base_requests
                 team_size timeline_months complexity_factor)
      volume_scenarios (Ok []) ;;
  let complexity_scenarios := [0.7; 0.9; 1.0; 1.2; 1.5] in
  complexity_analysis <~
    fold_left (complexity_step current_framework target_framework model
                 base_requests team_size timeline_months)
      complexity_scenarios (Ok []) ;;
  Ok {| volume_sensitivity := volume_analysis;
        complexity_sensitivity := complexity_analysis;
        key_insights :=
          [ "ROI is most sensitive to request volume changes";
            "Development complexity significantly impacts payback period";
            "Higher volumes make migration more attractive" ]%string |}.

End Analyzer.

End ROI.

(** ** Scenario generator: [generate_scenarios.py] *)

(** [format(i, ',')] for an [int] *)
Definition format_int_grouped (i : Z) : string :=
  if (i <? 0)%Z then ("-" ++ group_thousands (str_int (- i)))%string
  else group_thousands (str_int i).

(** [s.lower()], on ASCII *)
Definition lower_char (c : ascii) : ascii :=
  let n := nat_of_ascii c in
  if (65 <=? n)%nat && (n <=? 90)%nat then ascii_of_nat (n + 32) else c.

Fixpoint lower (s : string) : string :=
  match s with
  | EmptyString => EmptyString
  | String c s' => String (lower_char c) (lower s')
  end.

(** [sub in s] *)
Fixpoint contains (sub s : string) : bool :=
  if String.prefix sub s then true
  else match s with
       | EmptyString => false
       | String _ s' => contains sub s'
       end.

(** [l[0]] and [l[-1]] *)
Definition first_item {A : Type} (l : list A) : result A :=
  match l with
  | [] => Error IndexError
  | x :: _ => Ok x
  end.

Definition last_item {A : Type} (l : list A) : result A :=
  match rev l with
  | [] => Error IndexError
  | x :: _ => Ok x
  end.

Module Scenarios.

Record BusinessContext : Type := {
  team_size : string;
  budget : string;
  timeline : string;
  priorities : list string
}.

(** A scenario of the table; in the returned [scenario_data] the model is
    replaced by its value, a string. *)
Record Scenario (M : Type) : Type := {
  name : string;
  description : string;
  requests_per_month : Z;
  model : M;
  custom_tokens : Z;
  business_context : BusinessContext
}.

Arguments name {M} s.
Arguments description {M} s.
Arguments requests_per_month {M} s.
Arguments model {M} s.
Arguments custom_tokens {M} s.
Arguments business_context {M} s.

Local Open Scope string_scope.

Definition scenarios : dict (Scenario ModelProvider) :=
  [ ("startup_mvp",
     {| name := "Startup MVP";
        description := "Early-stage startup building minimum viable product";
        requests_per_month := 1000;
        model := OPENAI_GPT4O_MINI;
        custom_tokens := 800;
        business_context :=
          {| team_size := "2-5 developers";
             budget := "Limited seed funding";
             timeline := "3-6 months to market";
             priorities := ["Cost efficiency"; "Speed to market"; "Simplicity"] |} |});
    ("saas_growth",
     {| name := "SaaS Growth Stage";
        description := "Growing SaaS company scaling user base";
        requests_per_month := 25000;
        model := OPENAI_GPT4O;
        custom_tokens := 1200;
        business_context :=
          {| team_size := "10-20 developers";
             budget := "Series A funded";
             timeline := "12-18 months scaling";
             priorities := ["Scalability"; "Performance"; "Feature velocity"] |} |});
    ("enterprise_deployment",
     {| name := "Enterprise Deployment";
        description := "Large enterprise with compliance requirements";
        requests_per_month := 100000;
        model := CLAUDE_35_SONNET;
        custom_tokens := 2000;
        business_context :=
          {| team_size := "50+ developers";
             budget := "Enterprise budget";
             timeline := "Multi-year deployment";
             priorities := ["Security"; "Compliance"; "Reliability"; "Support"] |} |});
    ("ai_research_lab",
     {| name := "AI Research Lab";
        description := "Research institution exploring AI capabilities";
        requests_per_month := 15000;
        model := OPENAI_GPT4O;
        custom_tokens := 3000;
        business_context :=
          {| team_size := "5-15 researchers";
             budget := "Grant funding";
             timeline := "1-3 year projects";
             priorities :=
               ["Experimental features"; "Flexibility"; "Research capabilities"] |} |});
    ("ecommerce_platform",
     {| name := "E-commerce Platform";
        description := "Online retail platform with AI-powered features";
        requests_per_month := 75000;
        model := OPENAI_GPT4O;
        custom_tokens := 1500;
        business_context :=
          {| team_size := "20-40 developers";
             budget := "Revenue-funded growth";
             timeline := "Continuous deployment";
             priorities :=
               ["Customer experience"; "Conversion rates"; "Cost optimization"] |} |});
    ("healthcare_startup",
     {| name := "Healthcare AI Startup";
        description := "Digital health company with AI diagnostics";
        requests_per_month := 8000;
        model := CLAUDE_35_SONNET;
        custom_tokens := 2500;
        business_context :=
          {| team_size := "10-25 developers";
             budget := "Series A/B funding";
             timeline := "18-24 months to regulatory approval";
             priorities :=
               ["Regulatory compliance"; "Accuracy"; "Privacy"; "Auditability"] |} |});
    ("fintech_robo_advisor",
     {| name := "FinTech Robo-Advisor";
        description := "Automated investment platform with AI recommendations";
        requests_per_month := 45000;
        model := OPENAI_GPT4O;
        custom_tokens := 1800;
        business_context :=
          {| team_size := "15-30 developers";
             budget := "Well-funded growth stage";
             timeline := "Continuous optimization";
             priorities :=
               ["Regulatory compliance"; "Performance"; "Risk management";
                "Cost efficiency"] |} |});
    ("content_creation_platform",
     {| name := "Content Creation Platform";
        description := "AI-powered content generation for marketing teams";
        requests_per_month := 35000;
        model := OPENAI_GPT4O;
        custom_tokens := 2200;
        business_context :=
          {| team_size := "8-20 developers";
             budget := "Bootstrap/Series A";
             timeline := "6-12 months to profitability";
             priorities :=
               ["Content quality"; "Speed"; "Cost per output"; "Scalability"] |} |}) ].

Local Close Scope string_scope.

(** The key that only some recommendations carry. *)
Inductive Extra : Type :=
| savings (text : string)
| cost_premium (text : string)
| enterprise_benefits (items : list string)
| experimental_benefits (items : list string).

Record Recommendation : Type := {
  category : string;
  framework : string;
  reasoning : string;
  priority : string;
  extra : Extra
}.

Local Open Scope Q_scope.

(** The comparison sorted by total cost, as the three functions recompute it. *)
Definition sorted_by_total (comparison : dict (ComparisonEntry (F:=Q)))
    : list (string * ComparisonEntry) :=
  sorted (fun x => total_cost (costs (snd x))) comparison.

Local Open Scope result_scope.

(** The loop of the high-volume branch, which stops at the first framework
    it recommends. *)
Fixpoint performance_loop
    (sorted_frameworks items : list (string * ComparisonEntry (F:=Q)))
    (recommendations : list Recommendation) : result (list Recommendation) :=
  match items with
  | [] => Ok recommendations
  | (fw_key, fw_data) :: rest =>
      if existsb (String.eqb fw_key) ["semantic_kernel"; "autogen"]%string then
        most_expensive <~ last_item sorted_frameworks ;;
        if Qltb (total_cost (costs fw_data))
                (total_cost (costs (snd most_expensive)) * 1.2)%Q
        then
          cheapest <~ first_item sorted_frameworks ;;
          Ok (recommendations ++
              [ {| category := "Performance & Scale";
                   framework := fw_key;
                   reasoning :=
                     (framework_name fw_data ++
                      " offers excellent performance at scale with enterprise-grade reliability")%string;
                   priority := "medium";
                   extra :=
                     cost_premium
                       ("$" ++ format_f false 2
                                 (total_cost (costs fw_data)
                                  - total_cost (costs (snd cheapest)))%Q
                        ++ "/month premium for enhanced capabilities")%string |} ])
        else performance_loop sorted_frameworks rest recommendations
      else performance_loop sorted_frameworks rest recommendations
  end.

Definition _generate_recommendations
    (scenario : Scenario ModelProvider) (comparison : dict (ComparisonEntry (F:=Q)))
    : result (list Recommendation) :=
  let recommendations := [] in
  let sorted_frameworks := sorted_by_total comparison in
  (* Budget-conscious recommendation *)
  recommendations <~
    (if (requests_per_month scenario <? 10000)%Z then
       cheapest <~ first_item sorted_frameworks ;;
       most_expensive <~ last_item sorted_frameworks ;;
       Ok (recommendations ++
           [ {| category := "Budget Optimization";
                framework := fst cheapest;
                reasoning :=
                  ("For " ++ format_int_grouped (requests_per_month scenario)
                   ++ " requests/month, " ++ framework_name (snd cheapest)
                   ++ " offers the best cost efficiency at $"
                   ++ format_f false 2 (total_cost (costs (snd cheapest)))
                   ++ "/month")%string;
                priority := "high";
                extra :=
                  savings
                    ("$" ++ format_f false 0
                              ((total_cost (costs (snd most_expensive))
                                - total_cost (costs (snd cheapest))) * 12)%Q
                     ++ "/year vs most expensive option")%string |} ])
     else Ok recommendations) ;;
  (* Performance recommendation for high-volume scenarios *)
  recommendations <~
    (if (requests_per_month scenario >? 50000)%Z
     then performance_loop sorted_frameworks comparison recommendations
     else Ok recommendations) ;;
  (* Enterprise recommendation *)
  let recommendations :=
    if contains "enterprise" (lower (name scenario))
       || (requests_per_month scenario >? 75000)%Z
    then
      recommendations ++
      [ {| category := "Enterprise Ready";
           framework := "semantic_kernel";
           reasoning :=
             "Semantic Kernel provides enterprise integration, security features, and Microsoft ecosystem compatibility";
           priority := "high";
           extra :=
             enterprise_benefits
               ["Native Azure integration"; "Enterprise security";
                "Professional support"; "Compliance features"]%string |} ]
    else recommendations in
  (* Research/experimental recommendation *)
  let recommendations :=
    if contains "research" (lower (name scenario))
       || contains "startup" (lower (name scenario))
    then
      recommendations ++
      [ {| category := "Innovation & Flexibility";
           framework := "autogen";
           reasoning :=
             "AutoGen offers cutting-edge multi-agent capabilities and research-grade features for experimental use cases";
           priority := "medium";
           extra :=
             experimental_benefits
               ["Multi-agent conversations"; "Latest research features";
                "Flexible architectures"; "Active development"]%string |} ]
    else recommendations in
  Ok recommendations.

Module RoiScenario.

Record t : Type := {
  framework_name : string;
  development_cost : Z;
  annual_operating_cost : Q;
  total_first_year_cost : Q;
  annual_cost_vs_best : Q;
  payback_period_months : option Q;
  three_year_tco : Q
}.

End RoiScenario.

Definition development_costs : dict Z :=
  [ ("semantic_kernel"%string, 25000%Z); ("autogen"%string, 35000%Z);
    ("crewai"%string, 30000%Z); ("langchain"%string, 40000%Z);
    ("langgraph"%string, 45000%Z) ].

(** One iteration of the loop of [_calculate_roi_scenarios].  The payback
    period is never [float('inf')]: the division is made only by a positive
    difference, and exact arithmetic has no overflow. *)
Definition roi_scenario_step (best_framework : string * ComparisonEntry (F:=Q))
    (roi_scenarios : result (dict RoiScenario.t))
    (item : string * ComparisonEntry (F:=Q)) : result (dict RoiScenario.t) :=
  roi_scenarios <~ roi_scenarios ;;
  let (fw_key, fw_data) := item in
  let monthly_cost := total_cost (costs fw_data) in
  let annual_cost := (monthly_cost * 12)%Q in
  let dev_cost := dict_get_default development_costs fw_key 35000%Z in
  payback_and_diff <~
    (if negb (String.eqb fw_key (fst best_framework)) then
       let annual_cost_diff :=
         ((monthly_cost - total_cost (costs (snd best_framework))) * 12)%Q in
       if Qltb 0 annual_cost_diff then
         payback_months <~ lift (pydiv (inject_Z dev_cost) annual_cost_diff) ;;
         Ok (payback_months, annual_cost_diff)
       else Ok (0%Q, annual_cost_diff)
     else Ok (0%Q, 0%Q)) ;;
  let (payback_months, annual_cost_diff) := payback_and_diff in
  Ok (dict_set roi_scenarios fw_key
        {| RoiScenario.framework_name := framework_name fw_data;
           RoiScenario.development_cost := dev_cost;
           RoiScenario.annual_operating_cost := annual_cost;
           RoiScenario.total_first_year_cost := (inject_Z dev_cost + annual_cost)%Q;
           RoiScenario.annual_cost_vs_best := annual_cost_diff;
           RoiScenario.payback_period_months := Some payback_months;
           RoiScenario.three_year_tco := (inject_Z dev_cost + annual_cost * 3)%Q |}).

Definition _calculate_roi_scenarios
    (scenario : Scenario ModelProvider) (comparison : dict (ComparisonEntry (F:=Q)))
    : result (dict RoiScenario.t) :=
  let sorted_frameworks := sorted_by_total comparison in
  best_framework <~ first_item sorted_frameworks ;;
  fold_left (roi_scenario_step best_framework) comparison (Ok []).

Record CostSummary : Type := {
  best_option : string;
  best_monthly_cost : Q;
  most_expensive : string;
  highest_monthly_cost : Q;
  max_monthly_savings : Q;
  max_annual_savings : Q;
  savings_percentage : Q
}.

Record Analysis : Type := {
  scenario : Scenario string;
  framework_comparison : dict (ComparisonEntry (F:=Q));
  cost_summary : CostSummary;
  recommendations : list Recommendation;
  roi_analysis : dict RoiScenario.t;
  generated_at : string
}.

Definition dict_lookup {V : Type} (d : dict V) (k : string) : result V :=
  match dict_get d k with
  | Some v => Ok v
  | None => Error (KeyError k)
  end.

Section Generator.

(** The reading of the clock, [datetime.now().isoformat()]. *)
Variable now : string.

Definition generate_scenario_analysis (scenario_key : string) : result Analysis :=
  scenario <~ dict_lookup scenarios scenario_key ;;
  comparison <~ lift (compare_frameworks (model scenario)
                        (requests_per_month scenario)
                        (Some (custom_tokens scenario))) ;;
  let sorted_frameworks := sorted_by_total comparison in
  best_framework <~ first_item sorted_frameworks ;;
  most_expensive <~ last_item sorted_frameworks ;;
  let max_savings :=
    (total_cost (costs (snd most_expensive))
     - total_cost (costs (snd best_framework)))%Q in
  let max_annual_savings := (max_savings * 12)%Q in
  recommendations <~ _generate_recommendations scenario comparison ;;
  roi_analysis <~ _calculate_roi_scenarios scenario comparison ;;
  let scenario_data :=
    {| name := name scenario;
       description := description scenario;
       requests_per_month := requests_per_month scenario;
       model := ModelProvider_value (model scenario);
       custom_tokens := custom_tokens scenario;
       business_context := business_context scenario |} in
  ratio <~ lift (pydiv max_savings (total_cost (costs (snd most_expensive)))) ;;
  Ok {| scenario := scenario_data;
        framework_comparison := comparison;
        cost_summary :=
          {| best_option := fst best_framework;
             best_monthly_cost := total_cost (costs (snd best_framework));
             most_expensive := fst most_expensive;
             highest_monthly_cost := total_cost (costs (snd most_expensive));
             max_monthly_savings := max_savings;
             max_annual_savings := max_annual_savings;
             savings_percentage := (ratio * 100)%Q |};
        recommendations := recommendations;
        roi_analysis := roi_analysis;
        generated_at := now |}.

End Generator.

Record FrameworkPerformance : Type := {
  wins : Z;
  win_rate : Q
}.

Record Summary : Type := {
  framework_performance : dict FrameworkPerformance;
  average_max_annual_savings : Q;
  key_insights : list string
}.

(** One iteration of the counting loop:
    [framework_wins[best] = framework_wins.get(best, 0) + 1]. *)
Definition count_win (framework_wins : dict Z) (item : string * Analysis) : dict Z :=
  let best_framework := best_option (cost_summary (snd item)) in
  dict_set framework_wins best_framework
    (dict_get_default framework_wins best_framework 0 + 1)%Z.

(** One entry of the dict comprehension over [framework_wins.items()]. *)
Definition performance_step (total_scenarios : Z)
    (performance : result (dict FrameworkPerformance)) (item : string * Z)
    : result (dict FrameworkPerformance) :=
  performance <~ performance ;;
  let (fw, w) := item in
  rate <~ lift (pydiv (inject_Z w) (inject_Z total_scenarios)) ;;
  Ok (dict_set performance fw {| wins := w; win_rate := rate |}).

Definition _generate_summary (all_scenarios : dict Analysis) : result Summary :=
  let framework_wins := fold_left count_win all_scenarios [] in
  let total_scenarios := Z.of_nat (List.length all_scenarios) in
  let total_max_savings :=
    fold_left Qplus
      (map (fun s => max_annual_savings (cost_summary (snd s))) all_scenarios) 0%Q in
  avg_max_savings <~ lift (pydiv total_max_savings (inject_Z total_scenarios)) ;;
  performance <~
    fold_left (performance_step total_scenarios) framework_wins (Ok []) ;;
  Ok {| framework_performance := performance;
        average_max_annual_savings := avg_max_savings;
        key_insights :=
          [ ("Framework selection can save up to $"
             ++ format_f true 0 avg_max_savings ++ " annually on average")%string;
            ("Semantic Kernel wins "
             ++ str_int (dict_get_default framework_wins "semantic_kernel" 0%Z)
             ++ "/" ++ str_int total_scenarios ++ " scenarios")%string;
            ("AutoGen wins "
             ++ str_int (dict_get_default framework_wins "autogen" 0%Z)
             ++ "/" ++ str_int total_scenarios ++ " scenarios")%string;
            "Cost optimization varies significantly by use case and scale"%string ] |}.

(** [generate_all_scenarios] acts on the world: it prints a line before each
    analysis, and every analysis that returns, and then the result itself,
    reads the clock once.  [clock n] is the reading number [n]. *)
Record World : Type := {
  stdout : list string;
  readings : nat
}.

Module AllScenarios.
Record t : Type := {
  scenarios : dict Analysis;
  summary : Summary;
  generated_at : string
}.
End AllScenarios.

(** One iteration of the loop over [self.scenarios.keys()]; an exception
    leaves the loop, and the world as it is by then. *)
Definition all_scenarios_step (clock : nat -> string)
    (state : World * result (dict Analysis)) (scenario_key : string)
    : World * result (dict Analysis) :=
  match state with
  | (w, Error e) => (w, Error e)
  | (w, Ok all_scenarios) =>
      match dict_lookup scenarios scenario_key with
      | Error e => (w, Error e)
      | Ok scenario =>
          let w :=
            {| stdout := stdout w
                         ++ [("Generating analysis for: " ++ name scenario)%string];
               readings := readings w |} in
          match generate_scenario_analysis (clock (readings w)) scenario_key with
          | Error e => (w, Error e)
          | Ok analysis =>
              ({| stdout := stdout w; readings := S (readings w) |},
               Ok (dict_set all_scenarios scenario_key analysis))
          end
      end
  end.

Definition generate_all_scenarios (clock : nat -> string)
    : World * result AllScenarios.t :=
  let (w, all_scenarios) :=
    fold_left (all_scenarios_step clock) (map fst scenarios)
      ({| stdout := []; readings := 0 |}, Ok []) in
  match all_scenarios with
  | Error e => (w, Error e)
  | Ok all_scenarios =>
      match _generate_summary all_scenarios with
      | Error e => (w, Error e)
      | Ok summary =>
          ({| stdout := stdout w; readings := S (readings w) |},
           Ok {| AllScenarios.scenarios := all_scenarios;
                 AllScenarios.summary := summary;
                 AllScenarios.generated_at := clock (readings w) |})
      end
  end.

End Scenarios.

(** ** Predicates on the scenario generator's results *)

(** What [_calculate_roi_scenarios] stores for a framework is consistent:
    the yearly difference to the best option is not negative, the payback
    figure is present and not negative, it is 0 when there is no difference,
    and otherwise it times the difference is the development cost. *)
Definition roi_entry_ok (kv : string * Scenarios.RoiScenario.t) : Prop :=
  let e := snd kv in
  (0 <= Scenarios.RoiScenario.annual_cost_vs_best e)%Q /\
  exists p,
    Scenarios.RoiScenario.payback_period_months e = Some p /\
    (0 <= p)%Q /\
    ((0 < Scenarios.RoiScenario.annual_cost_vs_best e)%Q ->
     (p * Scenarios.RoiScenario.annual_cost_vs_best e
      == inject_Z (Scenarios.RoiScenario.development_cost e))%Q) /\
    ((Scenarios.RoiScenario.annual_cost_vs_best e == 0)%Q -> (p == 0)%Q).

(** * Properties *)

(** ** Rounding in the exact instance *)

Section Rounding.

Local Open Scope Q_scope.

Lemma inject_Z_succ (z : Z) : inject_Z (z + 1) == inject_Z z + 1.
Proof. rewrite inject_Z_plus. reflexivity. Qed.

Lemma inject_Z_lt_succ (a b : Z) : inject_Z a < inject_Z b + 1 -> (a <= b)%Z.
Proof.
  intros Hlt. rewrite <- inject_Z_succ in Hlt.
  rewrite <- Zlt_Qlt in Hlt. lia.
Qed.

Lemma round_half_even_nearest (x : Q) : nearest_even x (round_half_even x).
Proof.
  unfold round_half_even, nearest_even.
  pose proof (Qfloor_le x) as Hlo.
  pose proof (Qlt_floor x) as Hhi.
  rewrite inject_Z_succ in Hhi.
  set (f := Qfloor x) in *.
  destruct (x - inject_Z f ?= 1 # 2) eqn:Hc.
  - apply Qeq_alt in Hc.
    destruct (Z.even f) eqn:He.
    + right. split; [right; lra | assumption].
    + right. split.
      * left. rewrite inject_Z_succ. lra.
      * rewrite Z.even_add, He. reflexivity.
  - apply Qlt_alt in Hc. 
    destruct (Qlt_le_dec (inject_Z f - (1#2)) x) as [H1|H1]; [left; lra | lra].
  - apply Qgt_alt in Hc. left. rewrite inject_Z_succ. lra.
Qed.

Lemma nearest_even_unique (x : Q) (N M : Z) :
  nearest_even x N -> nearest_even x M -> N = M.
Proof.
  unfold nearest_even.
  intros HN HM.
  assert (HNM : (N <= M + 1)%Z).
  { apply inject_Z_lt_succ. rewrite inject_Z_succ.
    destruct HN as [[? ?]|[[?|?] _]], HM as [[? ?]|[[?|?] _]]; lra. }
  assert (HMN : (M <= N + 1)%Z).
  { apply inject_Z_lt_succ. rewrite inject_Z_succ.
    destruct HN as [[? ?]|[[?|?] _]], HM as [[? ?]|[[?|?] _]]; lra. }
  assert (Hcases : N = M \/ N = (M + 1)%Z \/ M = (N + 1)%Z) by lia.
  destruct Hcases as [ ? | [ -> | -> ] ]; [assumption | exfalso | exfalso].
  - rewrite inject_Z_succ in HN.
    destruct HN as [[? ?]|[[?|?] HeN]], HM as [[? ?]|[[?|?] HeM]]; try lra.
    rewrite Z.even_add, HeM in HeN. discriminate.
  - rewrite inject_Z_succ in HM.
    destruct HN as [[? ?]|[[?|?] HeN]], HM as [[? ?]|[[?|?] HeM]]; try lra.
    rewrite Z.even_add, HeN in HeM. discriminate.
Qed.

Lemma round_half_even_unique (x : Q) (N : Z) :
  nearest_even x N -> round_half_even x = N.
Proof.
  intros HN. eapply nearest_even_unique; [apply round_half_even_nearest | exact HN].
Qed.

#[export] Instance round_half_even_Proper : Proper (Qeq ==> eq) round_half_even.
Proof.
  intros x y Hxy. apply round_half_even_unique.
  pose proof (round_half_even_nearest y) as Hy.
  unfold nearest_even in *. rewrite Hxy. exact Hy.
Qed.

Lemma round_half_even_inject_Z (z : Z) : round_half_even (inject_Z z) = z.
Proof. apply round_half_even_unique. left. lra. Qed.

Lemma round_half_even_opp (x : Q) : round_half_even (- x) = (- round_half_even x)%Z.
Proof.
  apply round_half_even_unique.
  pose proof (round_half_even_nearest x) as Hx.
  unfold nearest_even in *.
  rewrite inject_Z_opp, Z.even_opp.
  destruct Hx as [[? ?]|[[?|?] He]].
  - left. lra.
  - right. split; [right; lra | exact He].
  - right. split; [left; lra | exact He].
Qed.

Lemma round_half_even_error (x : Q) :
  inject_Z (round_half_even x) - (1 # 2) <= x /\
  x <= inject_Z (round_half_even x) + (1 # 2).
Proof.
  destruct (round_half_even_nearest x) as [[? ?]|[[?|?] _]]; lra.
Qed.

Lemma round_half_even_le (x y : Q) :
  x <= y -> (round_half_even x <= round_half_even y)%Z.
Proof.
  intros Hxy.
  pose proof (round_half_even_nearest x) as Hx.
  pose proof (round_half_even_nearest y) as Hy.
  set (N := round_half_even x) in *. set (M := round_half_even y) in *.
  destruct (Z_le_gt_dec N M) as [Hle|Hgt]; [exact Hle | exfalso].
  assert (HMN : inject_Z M + 1 <= inject_Z N).
  { rewrite <- inject_Z_succ, <- Zle_Qle. lia. }
  unfold nearest_even in *.
  destruct Hx as [[? ?]|[[Hx|Hx] HeN]], Hy as [[? ?]|[[Hy|Hy] HeM]]; try lra.
  assert (HN : N = (M + 1)%Z).
  { assert (Hle : (N <= M + 1)%Z); [| lia].
    rewrite Zle_Qle, inject_Z_succ. lra. }
  rewrite HN, Z.even_add, HeM in HeN. discriminate.
Qed.

Lemma ten_pow_pos (n : nat) : 0 < inject_Z (Zpos (ten_pow n)).
Proof. unfold Qlt. simpl. lia. Qed.

Lemma Qround_nd_scaled (x : Q) (n : nat) :
  Qround_nd x n * inject_Z (Zpos (ten_pow n))
  == inject_Z (round_half_even (x * inject_Z (Zpos (ten_pow n)))).
Proof.
  unfold Qround_nd, Qeq, inject_Z. simpl. lia.
Qed.

#[export] Instance Qround_nd_Proper : Proper (Qeq ==> eq ==> Qeq) Qround_nd.
Proof.
  intros x y Hxy n m <-. unfold Qround_nd. rewrite Hxy. reflexivity.
Qed.

Lemma Qround_nd_le (x y : Q) (n : nat) : x <= y -> Qround_nd x n <= Qround_nd y n.
Proof.
  intros Hxy.
  assert (Hs : (round_half_even (x * inject_Z (Zpos (ten_pow n)))
                <= round_half_even (y * inject_Z (Zpos (ten_pow n))))%Z).
  { apply round_half_even_le. apply Qmult_le_compat_r; [exact Hxy|].
    apply Qlt_le_weak, ten_pow_pos. }
  unfold Qround_nd, Qle. simpl. nia.
Qed.

Lemma Qround_nd_opp (x : Q) (n : nat) : Qround_nd (- x) n == - Qround_nd x n.
Proof.
  unfold Qround_nd.
  assert (E : - x * inject_Z (Zpos (ten_pow n)) == - (x * inject_Z (Zpos (ten_pow n)))) by ring.
  rewrite E, round_half_even_opp.
  unfold Qeq, Qopp. simpl. reflexivity.
Qed.

Lemma Qround_nd_inject_Z (z : Z) (n : nat) : Qround_nd (inject_Z z) n == inject_Z z.
Proof.
  unfold Qround_nd.
  rewrite <- inject_Z_mult, round_half_even_inject_Z.
  unfold Qeq, inject_Z. simpl. lia.
Qed.

Lemma Qround_2_error (x : Q) :
  Qround_nd x 2 - (1 # 200) <= x /\ x <= Qround_nd x 2 + (1 # 200).
Proof.
  pose proof (round_half_even_error (x * inject_Z (Zpos (ten_pow 2)))) as He.
  pose proof (Qround_nd_scaled x 2) as Hs.
  rewrite <- Hs in He.
  change (inject_Z (Zpos (ten_pow 2))) with 100 in He.
  lra.
Qed.

End Rounding.

(** ** The cost engine in the exact instance *)

(** Integer facts seen in [Q]. *)
Lemma inject_Z_sub (a b : Z) : (inject_Z (a - b) == inject_Z a - inject_Z b)%Q.
Proof. unfold Z.sub. rewrite inject_Z_plus, inject_Z_opp. ring. Qed.

Lemma inject_Z_le (a b : Z) : (a <= b)%Z -> (inject_Z a <= inject_Z b)%Q.
Proof. intros Hab. rewrite <- Zle_Qle. exact Hab. Qed.

Lemma inject_Z_lt (a b : Z) : (a < b)%Z -> (inject_Z a < inject_Z b)%Q.
Proof. intros Hab. rewrite <- Zlt_Qlt. exact Hab. Qed.

(** Move the integer order facts of the context to [Q]. *)
Ltac z_to_Q :=
  repeat match goal with
    | H : (_ <= _ < _)%Z |- _ => destruct H
    | H : (_ <= _)%Z |- _ => apply inject_Z_le in H
    | H : (_ < _)%Z |- _ => apply inject_Z_lt in H
    end;
  repeat match goal with
    | H : context [inject_Z (Zpos ?p)] |- _ =>
        change (inject_Z (Zpos p)) with (Zpos p # 1)%Q in H
    | H : context [inject_Z Z0] |- _ => change (inject_Z Z0) with 0%Q in H
    | |- context [inject_Z (Zpos ?p)] => change (inject_Z (Zpos p)) with (Zpos p # 1)%Q
    | |- context [inject_Z Z0] => change (inject_Z Z0) with 0%Q
    end.

Section CostEngine.

Local Open Scope Q_scope.

Lemma calculate_cost_per_request_exact fw m t :
  calculate_cost_per_request (F:=Q) fw m t =
  Returns (inject_Z (py_or t (avg_tokens_per_request (FRAMEWORK_METADATA (F:=Q) fw)))
           * overhead_multiplier (FRAMEWORK_METADATA fw) / 1000000
           * average_cost (MODEL_PRICING m)).
Proof. reflexivity. Qed.

Lemma calculate_cost_per_request_returns fw m t :
  exists c, calculate_cost_per_request (F:=Q) fw m t = Returns c.
Proof. eexists. apply calculate_cost_per_request_exact. Qed.

Lemma calculate_monthly_cost_exact fw m r t c :
  calculate_cost_per_request (F:=Q) fw m t = Returns c ->
  calculate_monthly_cost fw m r t =
  Returns {| api_cost := Qround_nd (c * inject_Z r) 2;
             infrastructure_cost := Qround_nd (_estimate_infrastructure_cost r) 2;
             monitoring_cost := Qround_nd (_estimate_monitoring_cost r) 2;
             total_cost :=
               Qround_nd (c * inject_Z r + _estimate_infrastructure_cost r
                          + _estimate_monitoring_cost r) 2;
             cost_per_request := Qround_nd c 4 |}.
Proof.
  intros Hc. unfold calculate_monthly_cost. rewrite Hc. reflexivity.
Qed.

Lemma calculate_monthly_cost_returns fw m r t :
  exists b, calculate_monthly_cost (F:=Q) fw m r t = Returns b.
Proof.
  eexists. apply calculate_monthly_cost_exact. apply calculate_cost_per_request_exact.
Qed.

Lemma py_or_nonneg t d : nonneg_tokens t -> (0 <= d)%Z -> (0 <= py_or t d)%Z.
Proof.
  destruct t as [n|]; simpl; intros Ht Hd; [|exact Hd].
  destruct (n =? 0)%Z; assumption.
Qed.

Lemma cost_per_request_nonneg fw m t c :
  nonneg_tokens t ->
  calculate_cost_per_request (F:=Q) fw m t = Returns c ->
  0 <= c.
Proof.
  intros Ht Hc. rewrite calculate_cost_per_request_exact in Hc.
  injection Hc as <-.
  assert (Hn : 0 <= inject_Z (py_or t (avg_tokens_per_request (FRAMEWORK_METADATA (F:=Q) fw)))).
  { change 0 with (inject_Z 0). rewrite <- Zle_Qle.
    apply py_or_nonneg; [exact Ht | destruct fw; simpl; lia]. }
  set (n := inject_Z _) in *.
  unfold Qdiv.
  destruct fw, m; cbn;
    repeat apply Qmult_le_0_compat; try assumption; vm_compute; discriminate.
Qed.

Lemma infrastructure_cost_tiers (r : Z) :
  ((r < 1000)%Z /\ _estimate_infrastructure_cost (F:=Q) r = 35) \/
  ((1000 <= r < 10000)%Z /\
   _estimate_infrastructure_cost (F:=Q) r = 85 + inject_Z (r - 1000) * (1 # 100)) \/
  ((10000 <= r < 100000)%Z /\
   _estimate_infrastructure_cost (F:=Q) r = 320 + inject_Z (r - 10000) * (5 # 1000)) \/
  ((100000 <= r)%Z /\
   _estimate_infrastructure_cost (F:=Q) r = 850 + inject_Z (r - 100000) * (2 # 1000)).
Proof.
  unfold _estimate_infrastructure_cost.
  destruct (r <? 1000)%Z eqn:H1; [left; split; [lia | reflexivity]|].
  destruct (r <? 10000)%Z eqn:H2; [right; left; split; [lia | reflexivity]|].
  destruct (r <? 100000)%Z eqn:H3; [right; right; left; split; [lia | reflexivity]|].
  right; right; right; split; [lia | reflexivity].
Qed.

Lemma monitoring_cost_tiers (r : Z) :
  ((r < 1000)%Z /\ _estimate_monitoring_cost (F:=Q) r = 15) \/
  ((1000 <= r < 10000)%Z /\ _estimate_monitoring_cost (F:=Q) r = 45) \/
  ((10000 <= r < 100000)%Z /\ _estimate_monitoring_cost (F:=Q) r = 125) \/
  ((100000 <= r)%Z /\ _estimate_monitoring_cost (F:=Q) r = 250).
Proof.
  unfold _estimate_monitoring_cost.
  destruct (r <? 1000)%Z eqn:H1; [left; split; [lia | reflexivity]|].
  destruct (r <? 10000)%Z eqn:H2; [right; left; split; [lia | reflexivity]|].
  destruct (r <? 100000)%Z eqn:H3; [right; right; left; split; [lia | reflexivity]|].
  right; right; right; split; [lia | reflexivity].
Qed.

Lemma infrastructure_cost_mono (r1 r2 : Z) :
  (r1 <= r2)%Z ->
  _estimate_infrastructure_cost (F:=Q) r1 <= _estimate_infrastructure_cost r2.
Proof.
  intros Hr.
  destruct (infrastructure_cost_tiers r1) as [[B1 ->]|[[B1 ->]|[[B1 ->]|[B1 ->]]]];
  destruct (infrastructure_cost_tiers r2) as [[B2 ->]|[[B2 ->]|[[B2 ->]|[B2 ->]]]];
  try lia; rewrite ?inject_Z_sub; z_to_Q; lra.
Qed.

Lemma infrastructure_cost_min (r : Z) : 35 <= _estimate_infrastructure_cost (F:=Q) r.
Proof.
  destruct (infrastructure_cost_tiers r) as [[B ->]|[[B ->]|[[B ->]|[B ->]]]];
  rewrite ?inject_Z_sub;
  z_to_Q; lra.
Qed.

Lemma monitoring_cost_mono (r1 r2 : Z) :
  (r1 <= r2)%Z ->
  _estimate_monitoring_cost (F:=Q) r1 <= _estimate_monitoring_cost r2.
Proof.
  intros Hr.
  destruct (monitoring_cost_tiers r1) as [[B1 ->]|[[B1 ->]|[[B1 ->]|[B1 ->]]]];
  destruct (monitoring_cost_tiers r2) as [[B2 ->]|[[B2 ->]|[[B2 ->]|[B2 ->]]]];
  try lia; lra.
Qed.

Lemma monitoring_cost_min (r : Z) : 15 <= _estimate_monitoring_cost (F:=Q) r.
Proof.
  destruct (monitoring_cost_tiers r) as [[B ->]|[[B ->]|[[B ->]|[B ->]]]]; lra.
Qed.

Lemma monitoring_cost_integer (r : Z) :
  exists z, _estimate_monitoring_cost (F:=Q) r = inject_Z z.
Proof.
  destruct (monitoring_cost_tiers r) as [[B ->]|[[B ->]|[[B ->]|[B ->]]]];
  eexists; reflexivity.
Qed.

End CostEngine.

(** ** Worked example and tier boundary *)

Section Examples.

Local Open Scope Q_scope.

(** C1, refuted as stated: the [cost_per_request] field of the breakdown
    returned for AutoGen, GPT-4o and 10,000 requests is not 0.025872, in the
    exact instance and in binary64. *)
Lemma example_cost_per_request_field_not_unrounded :
  ~ (exists b, calculate_monthly_cost (F:=Q) AUTOGEN OPENAI_GPT4O 10000 None = Returns b
               /\ cost_per_request b == 0.025872) /\
  ~ (exists b, calculate_monthly_cost (F:=float) AUTOGEN OPENAI_GPT4O 10000 None = Returns b
               /\ cost_per_request b = dec 25872 6).
Proof.
  split; intros [b [Hb Hc]]; vm_compute in Hb; injection Hb as <-;
    vm_compute in Hc; discriminate.
Qed.

(** C1, amended: for AutoGen, GPT-4o and 10,000 requests the unrounded cost
    per request is 0.025872, and the breakdown returned holds its rounding to
    four decimals, 0.0259, with api_cost 258.72, infrastructure_cost 320,
    monitoring_cost 125 and total_cost 703.72.  The breakdown is the same in
    binary64, each field being the double nearest to the decimal. *)
Theorem example_autogen_gpt4o_10000 :
  (exists c, calculate_cost_per_request (F:=Q) AUTOGEN OPENAI_GPT4O None = Returns c
             /\ c == 0.025872) /\
  calculate_monthly_cost (F:=Q) AUTOGEN OPENAI_GPT4O 10000 None
  = Returns {| api_cost := 258.72; infrastructure_cost := 320.00;
               monitoring_cost := 125.00; total_cost := 703.72;
               cost_per_request := 0.0259 |} /\
  calculate_cost_per_request (F:=float) AUTOGEN OPENAI_GPT4O None
  = Returns (dec 25872 6) /\
  calculate_monthly_cost (F:=float) AUTOGEN OPENAI_GPT4O 10000 None
  = Returns {| api_cost := dec 25872 2; infrastructure_cost := dec 32000 2;
               monitoring_cost := dec 12500 2; total_cost := dec 70372 2;
               cost_per_request := dec 259 4 |}.
Proof.
  split; [|split; [|split]].
  - eexists. split; [reflexivity | vm_compute; reflexivity].
  - vm_compute. reflexivity.
  - vm_compute. reflexivity.
  - vm_compute. reflexivity.
Qed.

(** C7, refuted as stated: at exactly 1,000 requests the infrastructure cost
    is not 35, neither from the tier function nor in the breakdown, in the
    exact instance and in binary64. *)
Lemma thousand_requests_not_basic_tier :
  ~ _estimate_infrastructure_cost (F:=Q) 1000 == 35 /\
  ~ (exists b, calculate_monthly_cost (F:=Q) AUTOGEN OPENAI_GPT4O 1000 None = Returns b
               /\ infrastructure_cost b == 35) /\
  _estimate_infrastructure_cost (F:=float) 1000 <> of_int 35 /\
  ~ (exists b, calculate_monthly_cost (F:=float) AUTOGEN OPENAI_GPT4O 1000 None = Returns b
               /\ infrastructure_cost b = of_int 35).
Proof.
  split; [|split; [|split]].
  - vm_compute. discriminate.
  - intros [b [Hb Hc]]. vm_compute in Hb. injection Hb as <-.
    vm_compute in Hc. discriminate.
  - vm_compute. discriminate.
  - intros [b [Hb Hc]]. vm_compute in Hb. injection Hb as <-.
    vm_compute in Hc. discriminate.
Qed.

(** C7, amended: at exactly 1,000 requests the infrastructure cost is 85, the
    base of the second tier, for every framework, model and token override;
    the basic-tier cost 35 is returned exactly for the requests below 1,000. *)
Theorem infrastructure_cost_at_1000 :
  _estimate_infrastructure_cost (F:=Q) 1000 == 85 /\
  (forall fw m t, exists b,
      calculate_monthly_cost (F:=Q) fw m 1000 t = Returns b /\
      infrastructure_cost b == 85) /\
  (forall r, Qeq_bool (_estimate_infrastructure_cost (F:=Q) r) 35 = (r <? 1000)%Z) /\
  _estimate_infrastructure_cost (F:=float) 1000 = of_int 85 /\
  _estimate_infrastructure_cost (F:=float) 999 = of_int 35.
Proof.
  split; [|split; [|split; [|split]]].
  - vm_compute. reflexivity.
  - intros fw m t.
    eexists. split.
    + apply calculate_monthly_cost_exact. apply calculate_cost_per_request_exact.
    + vm_compute. reflexivity.
  - intros r.
    destruct (infrastructure_cost_tiers r) as [[B E]|[[B E]|[[B E]|[B E]]]];
      rewrite E;
      [symmetry; apply Z.ltb_lt; exact B | ..];
      (replace (r <? 1000)%Z with false by (symmetry; apply Z.ltb_ge; lia));
      apply not_true_is_false; intros Hb; apply Qeq_bool_iff in Hb;
      rewrite inject_Z_sub in Hb; z_to_Q; lra.
  - vm_compute. reflexivity.
  - vm_compute. reflexivity.
Qed.

End Examples.

(** ** Inputs outside the documented domain *)

Section Validation.

Local Open Scope Q_scope.



(** C10: a token override of exactly 0 is treated as no override, in every
    arithmetic: the framework's average token count is used. *)
Theorem zero_tokens_is_no_override (F : Type) (PF : PyFloat F) fw m :
  calculate_cost_per_request (F:=F) fw m (Some 0%Z)
  = calculate_cost_per_request fw m None /\
  py_or (Some 0%Z) (avg_tokens_per_request (FRAMEWORK_METADATA (F:=F) fw))
  = avg_tokens_per_request (FRAMEWORK_METADATA (F:=F) fw).
Proof.
  split; reflexivity.
Qed.

End Validation.

(** ** Totals, monotonicity and the migration estimator *)

Section Totals.

Local Open Scope Q_scope.


Lemma Qround_2_integral (x : Q) : exists N, Qround_nd x 2 * 100 == inject_Z N.
Proof. eexists. apply (Qround_nd_scaled x 2). Qed.


(** The total is at least 50 when the api cost is not negative. *)
Lemma total_cost_at_least_50 fw m r t b :
  nonneg_tokens t -> (0 <= r)%Z ->
  calculate_monthly_cost (F:=Q) fw m r t = Returns b ->
  50 <= total_cost b.
Proof.
  intros Ht Hr Hb.
  destruct (calculate_cost_per_request_returns fw m t) as [c Hcr].
  pose proof (cost_per_request_nonneg Ht Hcr) as Hc.
  rewrite (calculate_monthly_cost_exact r Hcr) in Hb.
  injection Hb as <-. cbn [total_cost].
  rewrite <- (Qround_nd_inject_Z 50 2). change (inject_Z 50) with 50.
  apply Qround_nd_le.
  pose proof (infrastructure_cost_min r).
  pose proof (monitoring_cost_min r).
  assert (0 <= c * inject_Z r).
  { apply Qmult_le_0_compat; [exact Hc|]. change 0 with (inject_Z 0).
    apply inject_Z_le. exact Hr. }
  lra.
Qed.




End Totals.

(** ** Migration estimator *)

Section Migration.

Local Open Scope Q_scope.

Lemma estimate_migration_savings_exact fa fb m r ba bb :
  calculate_monthly_cost (F:=Q) fa m r None = Returns ba ->
  calculate_monthly_cost (F:=Q) fb m r None = Returns bb ->
  ~ total_cost ba == 0 ->
  estimate_migration_savings fa fb m r =
  Returns {| current_monthly_cost := total_cost ba;
             new_monthly_cost := total_cost bb;
             monthly_savings := Qround_nd (total_cost ba - total_cost bb) 2;
             annual_savings := Qround_nd ((total_cost ba - total_cost bb) * 12) 2;
             savings_percentage :=
               Qround_nd ((total_cost ba - total_cost bb) / total_cost ba * 100) 1 |}.
Proof.
  intros Ha Hb Hnz.
  unfold estimate_migration_savings. rewrite Ha, Hb. cbn [bind].
  unfold pydiv. cbn [fzero Q_PyFloat].
  destruct (Qeq_bool (total_cost ba) 0) eqn:Hz.
  - apply Qeq_bool_iff in Hz. contradiction.
  - reflexivity.
Qed.

Lemma total_cost_nonzero fw m r b :
  (0 < r)%Z ->
  calculate_monthly_cost (F:=Q) fw m r None = Returns b ->
  ~ total_cost b == 0.
Proof.
  intros Hr Hb Hz.
  assert (H50 : 50 <= total_cost b).
  { apply (@total_cost_at_least_50 fw m r None b); [exact I | lia | exact Hb]. }
  lra.
Qed.





(** The migration example of the command-line interface, LangChain to
    AutoGen on GPT-4o at 10,000 requests, in both arithmetics; and the
    division by a zero total that a negative number of requests can reach. *)
Lemma migration_example :
  estimate_migration_savings (F:=Q) LANGCHAIN AUTOGEN OPENAI_GPT4O 10000
  = Returns {| current_monthly_cost := 767.83; new_monthly_cost := 703.72;
               monthly_savings := 64.11; annual_savings := 769.32;
               savings_percentage := 8.3 |} /\
  estimate_migration_savings (F:=float) LANGCHAIN AUTOGEN OPENAI_GPT4O 10000
  = Returns {| current_monthly_cost := dec 76783 2; new_monthly_cost := dec 70372 2;
               monthly_savings := dec 6411 2; annual_savings := dec 76932 2;
               savings_percentage := dec 83 1 |} /\
  estimate_migration_savings (F:=Q) SEMANTIC_KERNEL AUTOGEN LOCAL_LLM (-534188)
  = Raises ZeroDivisionError /\
  estimate_migration_savings (F:=float) SEMANTIC_KERNEL AUTOGEN LOCAL_LLM (-534188)
  = Raises ZeroDivisionError.
Proof.
  repeat split; vm_compute; reflexivity.
Qed.

End Migration.

(** ** Comparator *)

Section StableSort.

Local Open Scope Q_scope.

Variable A : Type.
Variable key : A -> Q.

Lemma Qltb_lt (x y : Q) : Qltb x y = true <-> x < y.
Proof.
  unfold Qltb. rewrite negb_true_iff.
  split.
  - intros Hb. apply Qnot_le_lt. intros Hle.
    apply Qle_bool_iff in Hle. congruence.
  - intros Hlt. destruct (Qle_bool y x) eqn:Hb; [|reflexivity].
    apply Qle_bool_iff in Hb. lra.
Qed.

Lemma Qltb_ge (x y : Q) : Qltb x y = false <-> y <= x.
Proof.
  unfold Qltb. rewrite negb_false_iff. apply Qle_bool_iff.
Qed.

Lemma insert_by_perm (x : A) (l : list A) :
  Permutation (insert_by (F:=Q) key x l) (x :: l).
Proof.
  induction l as [|y l IH]; simpl.
  - reflexivity.
  - destruct (Qltb (key y) (key x)).
    + rewrite IH. apply perm_swap.
    + reflexivity.
Qed.

Lemma sorted_perm (l : list A) : Permutation (sorted (F:=Q) key l) l.
Proof.
  induction l as [|x l IH]; simpl.
  - reflexivity.
  - rewrite insert_by_perm. apply perm_skip. exact IH.
Qed.

Lemma insert_by_sorted (x : A) (l : list A) :
  StronglySorted (key_le key) l -> StronglySorted (key_le key) (insert_by (F:=Q) key x l).
Proof.
  induction 1 as [|y l Hs IH Hy]; simpl.
  - repeat constructor.
  - destruct (Qltb (key y) (key x)) eqn:Hc.
    + constructor; [exact IH|].
      apply (Permutation_Forall (Permutation_sym (insert_by_perm x l))).
      constructor; [|exact Hy].
      apply Qltb_lt in Hc. unfold key_le. lra.
    + apply Qltb_ge in Hc.
      constructor; [constructor; assumption|].
      constructor; [exact Hc|].
      eapply Forall_impl; [|exact Hy].
      unfold key_le. intros a Ha. lra.
Qed.

Lemma sorted_sorted (l : list A) : StronglySorted (key_le key) (sorted (F:=Q) key l).
Proof.
  induction l as [|x l IH]; simpl.
  - constructor.
  - apply insert_by_sorted. exact IH.
Qed.

Lemma precedes_cons_inv (y : A) (l : list A) (a b : A) :
  precedes (y :: l) a b -> (a = y /\ In b l) \/ precedes l a b.
Proof.
  intros [l1 [l2 [l3 E]]].
  destruct l1 as [|z l1]; simpl in E; injection E as -> ->.
  - left. split; [reflexivity|]. apply in_or_app. right. left. reflexivity.
  - right. exists l1, l2, l3. reflexivity.
Qed.

Lemma precedes_head (y : A) (l : list A) (b : A) : In b l -> precedes (y :: l) y b.
Proof.
  intros Hb. apply in_split in Hb. destruct Hb as [l2 [l3 ->]].
  exists [], l2, l3. reflexivity.
Qed.

Lemma precedes_tail (y : A) (l : list A) (a b : A) :
  precedes l a b -> precedes (y :: l) a b.
Proof.
  intros [l1 [l2 [l3 ->]]]. exists (y :: l1), l2, l3. reflexivity.
Qed.

Lemma precedes_insert_by (x : A) (l : list A) (a b : A) :
  precedes (insert_by (F:=Q) key x l) a b ->
  precedes l a b \/ (a = x /\ In b l) \/ (b = x /\ key a < key x).
Proof.
  induction l as [|y l IH]; simpl.
  - intros [l1 [l2 [l3 E]]]. apply (f_equal (@List.length A)) in E.
    rewrite length_app in E. simpl in E. rewrite length_app in E. simpl in E. lia.
  - destruct (Qltb (key y) (key x)) eqn:Hc.
    + intros Hp. apply precedes_cons_inv in Hp.
      destruct Hp as [[-> Hb]|Hp].
      * apply (Permutation_in _ (insert_by_perm x l)) in Hb.
        destruct Hb as [<-|Hb].
        -- right. right. split; [reflexivity|]. apply Qltb_lt. exact Hc.
        -- left. apply precedes_head. exact Hb.
      * destruct (IH Hp) as [H1|[[-> H2]|H3]].
        -- left. apply precedes_tail. exact H1.
        -- right. left. split; [reflexivity | right; exact H2].
        -- right. right. exact H3.
    + intros Hp. apply precedes_cons_inv in Hp.
      destruct Hp as [[-> Hb]|Hp].
      * right. left. split; [reflexivity | exact Hb].
      * left. exact Hp.
Qed.

(** Stability: two elements with equal keys keep their order. *)
Lemma sorted_stable (l : list A) (a b : A) :
  precedes (sorted (F:=Q) key l) a b -> key a == key b -> precedes l a b.
Proof.
  induction l as [|x l IH]; simpl; intros Hp Hk.
  - destruct Hp as [l1 [l2 [l3 E]]]. destruct l1; discriminate.
  - apply precedes_insert_by in Hp.
    destruct Hp as [H1|[[-> H2]|[-> H3]]].
    + apply precedes_tail. apply IH; assumption.
    + apply precedes_head. apply (Permutation_in _ (sorted_perm l)). exact H2.
    + lra.
Qed.

End StableSort.

Section Comparator.

Local Open Scope Q_scope.

Lemma precedes_map (A B : Type) (h : A -> B) (l : list A) (a b : A) :
  (forall x y, h x = h y -> x = y) ->
  precedes (map h l) (h a) (h b) -> precedes l a b.
Proof.
  intros Hinj [l1 [l2 [l3 E]]].
  apply map_eq_app in E. destruct E as [k1 [k [-> [_ E]]]].
  apply map_eq_cons in E. destruct E as [a' [k' [-> [Ea E]]]].
  apply map_eq_app in E. destruct E as [k2 [k'' [-> [_ E]]]].
  apply map_eq_cons in E. destruct E as [b' [k3 [-> [Eb _]]]].
  apply Hinj in Ea, Eb. subst a' b'.
  exists k1, k2, k3. reflexivity.
Qed.

Lemma dict_set_fresh (V : Type) (d : dict V) (k : string) (v : V) :
  ~ In k (map fst d) -> dict_set d k v = d ++ [(k, v)].
Proof.
  induction d as [|[k' v'] d IH]; simpl; intros Hk.
  - reflexivity.
  - destruct (String.eqb k' k) eqn:E.
    + apply String.eqb_eq in E. exfalso. apply Hk. left. exact E.
    + rewrite IH; [reflexivity|]. intros Hin. apply Hk. right. exact Hin.
Qed.

Lemma dict_of_items_from (V : Type) (items acc : list (string * V)) :
  NoDup (map fst (acc ++ items)) ->
  fold_left (fun d kv => dict_set d (fst kv) (snd kv)) items acc = acc ++ items.
Proof.
  revert acc. induction items as [|[k v] items IH]; simpl; intros acc Hnd.
  - rewrite app_nil_r. reflexivity.
  - rewrite dict_set_fresh.
    + rewrite IH; rewrite <- app_assoc; [reflexivity | exact Hnd].
    + rewrite map_app in Hnd. simpl in Hnd.
      apply NoDup_remove_2 in Hnd. intros Hin. apply Hnd.
      apply in_or_app. left. exact Hin.
Qed.

Lemma dict_of_items_nodup (V : Type) (items : list (string * V)) :
  NoDup (map fst items) -> dict_of_items items = items.
Proof.
  intros Hnd. unfold dict_of_items. apply (dict_of_items_from items []). exact Hnd.
Qed.

Lemma value_injective (f g : Framework) : value f = value g -> f = g.
Proof. destruct f, g; simpl; intros E; try reflexivity; discriminate. Qed.

Lemma NoDup_values : NoDup (map value Framework_members).
Proof.
  repeat constructor; simpl; intuition discriminate.
Qed.

Lemma compare_step_returns m r t (acc : dict (ComparisonEntry (F:=Q))) f b :
  calculate_monthly_cost f m r t = Returns b ->
  compare_step m r t (Returns acc) f
  = Returns (dict_set acc (value f)
               {| costs := b;
                  framework_name := title (replace_underscore (value f));
                  entry_description := description (FRAMEWORK_METADATA (F:=Q) f) |}).
Proof.
  intros Hb. unfold compare_step. cbn [bind]. rewrite Hb. reflexivity.
Qed.

Lemma compare_fold m r t (get : Framework -> CostBreakdown (F:=Q))
    (fs : list Framework) (acc : dict ComparisonEntry) :
  (forall f, calculate_monthly_cost f m r t = Returns (get f)) ->
  NoDup (map fst acc ++ map value fs) ->
  fold_left (compare_step m r t) fs (Returns acc)
  = Returns (acc ++ map (fun f =>
               (value f,
                {| costs := get f;
                   framework_name := title (replace_underscore (value f));
                   entry_description := description (FRAMEWORK_METADATA (F:=Q) f) |}))
               fs).
Proof.
  intros Hget. revert acc.
  induction fs as [|f fs IH]; intros acc Hnd; cbn [fold_left map].
  - rewrite app_nil_r. reflexivity.
  - rewrite (@compare_step_returns m r t acc f (get f) (Hget f)).
    cbn [map] in Hnd.
    rewrite dict_set_fresh.
    + rewrite IH.
      * rewrite <- app_assoc. reflexivity.
      * rewrite map_app, <- app_assoc. exact Hnd.
    + apply NoDup_remove_2 in Hnd. intros Hin. apply Hnd.
      apply in_or_app. left. exact Hin.
Qed.


(** The comparison of the command-line interface (GPT-4o, 10,000 requests)
    and a comparison where all totals are equal, in both arithmetics. *)
Lemma compare_frameworks_examples :
  (exists res, compare_frameworks (F:=Q) OPENAI_GPT4O 10000 None = Returns res /\
     map (fun x => (fst x, total_cost (costs (snd x)), framework_name (snd x))) res
     = [("semantic_kernel", 650.92, "Semantic Kernel"); ("autogen", 703.72, "Autogen");
        ("crewai", 735.95, "Crewai"); ("langchain", 767.83, "Langchain");
        ("langgraph", 809.32, "Langgraph")]%string) /\
  (exists res, compare_frameworks (F:=float) OPENAI_GPT4O 10000 None = Returns res /\
     map (fun x => (fst x, total_cost (costs (snd x)), framework_name (snd x))) res
     = [("semantic_kernel", dec 65092 2, "Semantic Kernel");
        ("autogen", dec 70372 2, "Autogen"); ("crewai", dec 73595 2, "Crewai");
        ("langchain", dec 76783 2, "Langchain");
        ("langgraph", dec 80932 2, "Langgraph")]%string) /\
  (exists res, compare_frameworks (F:=Q) LOCAL_LLM 1 None = Returns res /\
     map (fun x => (fst x, total_cost (costs (snd x)))) res
     = [("autogen", 50.00); ("crewai", 50.00); ("langchain", 50.00);
        ("langgraph", 50.00); ("semantic_kernel", 50.00)]%string) /\
  (exists res, compare_frameworks (F:=float) LOCAL_LLM 1 None = Returns res /\
     map (fun x => (fst x, total_cost (costs (snd x)))) res
     = [("autogen", of_int 50); ("crewai", of_int 50); ("langchain", of_int 50);
        ("langgraph", of_int 50); ("semantic_kernel", of_int 50)]%string).
Proof.
  repeat split; eexists; (split; [vm_compute; reflexivity|]); vm_compute; reflexivity.
Qed.

End Comparator.

(** ** Net present value *)

Section NPVProperties.

Local Open Scope Q_scope.

Variable pow_frac : Q -> Q -> Q.

Hypothesis pow_frac_nonzero : ~ pow_frac (1 + (10 # 100)) (1 / 12) == 0.

Lemma discount_factor_nonzero (month : Z) : ~ Qpower (1 + r_m pow_frac) month == 0.
Proof.
  apply Qpower_not_0. unfold r_m. intros E. apply pow_frac_nonzero.
  rewrite <- E. ring.
Qed.

Lemma npv_step_returns (s v : Q) (month : Z) :
  npv_step s (r_m pow_frac) (Returns v) month
  = Returns (v + s / Qpower (1 + r_m pow_frac) month).
Proof.
  unfold npv_step, pydiv. cbn [bind fzero Q_PyFloat].
  destruct (Qeq_bool _ 0) eqn:Hz.
  - apply Qeq_bool_iff in Hz. exfalso. exact (discount_factor_nonzero month Hz).
  - reflexivity.
Qed.

Lemma npv_loop (s acc : Q) (n : nat) :
  exists v,
    fold_left (npv_step s (r_m pow_frac))
      (map (fun i => (1 + Z.of_nat i)%Z) (seq 0 n)) (Returns acc) = Returns v /\
    v == acc + discounted_sum pow_frac s n.
Proof.
  induction n as [|n [v [Hv Ev]]].
  - exists acc. split; [reflexivity | simpl; ring].
  - rewrite seq_S, map_app, fold_left_app, Hv. cbn [plus map fold_left].
    rewrite npv_step_returns.
    eexists. split; [reflexivity|].
    cbn [discounted_sum]. rewrite Ev, Nat2Z.inj_succ, <- Z.add_1_l. ring.
Qed.

Lemma discounted_sum_zero (n : nat) : discounted_sum pow_frac 0 n == 0.
Proof.
  induction n as [|n IH]; cbn [discounted_sum].
  - reflexivity.
  - rewrite IH. unfold Qdiv. ring.
Qed.

Lemma _calculate_npv_returns (dev s : Q) (h : Z) :
  exists v,
    _calculate_npv pow_frac dev s h = Returns v /\
    v == Qround_nd (dcf_npv pow_frac dev s (Z.to_nat h)) 2.
Proof.
  destruct (npv_loop s (- dev) (Z.to_nat h)) as [v [Hv Ev]].
  exists (Qround_nd v 2). split.
  - unfold _calculate_npv, range.
    replace (h + 1 - 1)%Z with h by lia.
    change (bind (fold_left (npv_step s (r_m pow_frac))
                    (map (fun i => (1 + Z.of_nat i)%Z) (seq 0 (Z.to_nat h)))
                    (Returns (- dev)))
                 (fun npv => Returns (Qround_nd npv 2))
            = Returns (Qround_nd v 2)).
    rewrite Hv. reflexivity.
  - apply Qround_nd_Proper; [|reflexivity].
    unfold dcf_npv. exact Ev.
Qed.

End NPVProperties.



(** * Further properties *)

(** ** Cost engine *)

Section EngineOrder.

Local Open Scope Q_scope.

Lemma total_cost_le_of_unit_cost_le fa fb m r t ca cb :
  (0 <= r)%Z ->
  calculate_cost_per_request (F:=Q) fa m t = Returns ca ->
  calculate_cost_per_request (F:=Q) fb m t = Returns cb ->
  ca <= cb ->
  exists ba bb,
    calculate_monthly_cost fa m r t = Returns ba /\
    calculate_monthly_cost fb m r t = Returns bb /\
    total_cost ba <= total_cost bb.
Proof.
  intros Hr Ha Hb Hle.
  eexists. eexists.
  split; [apply (calculate_monthly_cost_exact r Ha)|].
  split; [apply (calculate_monthly_cost_exact r Hb)|].
  cbn [total_cost]. apply Qround_nd_le.
  assert (ca * inject_Z r <= cb * inject_Z r).
  { apply Qmult_le_compat_r; [exact Hle|].
    change 0 with (inject_Z 0). apply inject_Z_le. exact Hr. }
  lra.
Qed.

Lemma unit_cost_chain m t :
  nonneg_tokens t ->
  exists c1 c2 c3 c4 c5,
    calculate_cost_per_request (F:=Q) SEMANTIC_KERNEL m t = Returns c1 /\
    calculate_cost_per_request (F:=Q) AUTOGEN m t = Returns c2 /\
    calculate_cost_per_request (F:=Q) CREWAI m t = Returns c3 /\
    calculate_cost_per_request (F:=Q) LANGCHAIN m t = Returns c4 /\
    calculate_cost_per_request (F:=Q) LANGGRAPH m t = Returns c5 /\
    c1 <= c2 /\ c2 <= c3 /\ c3 <= c4 /\ c4 <= c5.
Proof.
  intros Ht.
  do 5 eexists.
  repeat (split; [apply calculate_cost_per_request_exact|]).
  destruct t as [n|]; cbn [py_or].
  - destruct (n =? 0)%Z eqn:Hn.
    + destruct m; repeat split; apply Qle_bool_imp_le; vm_compute; reflexivity.
    + simpl in Ht. apply inject_Z_le in Ht. change (inject_Z 0) with 0 in Ht.
      set (q := inject_Z n) in *.
      unfold Qdiv. change (/ 1000000) with (1 # 1000000).
      destruct m; cbn; repeat split; lra.
  - destruct m; repeat split; apply Qle_bool_imp_le; vm_compute; reflexivity.
Qed.





End EngineOrder.

(** ** Migration estimator *)

Section MigrationIdentities.

Local Open Scope Q_scope.

Lemma Qround_2_cents (z : Z) : Qround_nd (z # 100) 2 == z # 100.
Proof.
  unfold Qround_nd.
  assert (E : (z # 100) * inject_Z (Zpos (ten_pow 2)) == inject_Z z).
  { unfold Qeq, inject_Z. simpl. lia. }
  rewrite E, round_half_even_inject_Z. reflexivity.
Qed.

Lemma total_cost_cents fw m r t b :
  calculate_monthly_cost (F:=Q) fw m r t = Returns b ->
  exists N, total_cost b = N # 100.
Proof.
  intros Hb.
  destruct (calculate_cost_per_request_returns fw m t) as [c Hc].
  rewrite (calculate_monthly_cost_exact r Hc) in Hb. injection Hb as <-.
  eexists. reflexivity.
Qed.




End MigrationIdentities.

(** ** Comparator *)

Section ComparatorEntries.

Local Open Scope Q_scope.

Lemma sorted_already_sorted (A : Type) (key : A -> Q) (l : list A) :
  StronglySorted (key_le key) l -> sorted (F:=Q) key l = l.
Proof.
  induction 1 as [|x l Hs IH Hx]; cbn [sorted fold_right].
  - reflexivity.
  - fold (sorted (F:=Q) key l). rewrite IH.
    destruct l as [|y l']; [reflexivity|].
    cbn [insert_by fltb Q_PyFloat].
    inversion Hx as [|? ? Hxy _]; subst.
    replace (Qltb (key y) (key x)) with false; [reflexivity|].
    symmetry. apply Qltb_ge. exact Hxy.
Qed.

Lemma compare_frameworks_exact m r t (get : Framework -> CostBreakdown (F:=Q)) :
  (forall f, calculate_monthly_cost f m r t = Returns (get f)) ->
  compare_frameworks m r t
  = Returns (sorted (fun x => total_cost (costs (snd x)))
               (map (fun f =>
                       (value f,
                        {| costs := get f;
                           framework_name := title (replace_underscore (value f));
                           entry_description :=
                             description (FRAMEWORK_METADATA (F:=Q) f) |}))
                    Framework_members)).
Proof.
  intros Hget. unfold compare_frameworks.
  rewrite (@compare_fold m r t get Framework_members [] Hget NoDup_values).
  cbn [bind app].
  rewrite dict_of_items_nodup; [reflexivity|].
  eapply Permutation_NoDup.
  - apply Permutation_map. apply Permutation_sym. apply sorted_perm.
  - rewrite map_map. exact NoDup_values.
Qed.

Lemma monthly_cost_function m r t :
  exists get : Framework -> CostBreakdown (F:=Q),
    forall f, calculate_monthly_cost f m r t = Returns (get f).
Proof.
  exists (fun f => match calculate_monthly_cost (F:=Q) f m r t with
                   | Returns b => b
                   | Raises _ =>
                       {| api_cost := 0; infrastructure_cost := 0;
                          monitoring_cost := 0; total_cost := 0;
                          cost_per_request := 0 |}
                   end).
  intros f. destruct (calculate_monthly_cost_returns f m r t) as [b ->]. reflexivity.
Qed.


End ComparatorEntries.

(** ** Development cost *)

(** Split the two-sided integer bounds, then move them to [Q]. *)
Ltac z_bounds_to_Q :=
  repeat match goal with
    | H : (_ <= _ <= _)%Z |- _ => destruct H
    end;
  z_to_Q.

Section DevelopmentCost.

Local Open Scope Q_scope.

Lemma Framework_of_value_value (f : Framework) : Framework_of_value (value f) = Ok f.
Proof. destruct f; reflexivity. Qed.

Lemma Framework_of_value_unknown (s : string) :
  (forall f, s <> value f) ->
  Framework_of_value s
  = Error (ValueError ("'" ++ s ++ "' is not a valid Framework")%string).
Proof.
  intros Hs. unfold Framework_of_value. cbn [find Framework_members value].
  destruct (String.eqb "autogen" s) eqn:E1;
    [apply String.eqb_eq in E1; exfalso; apply (Hs AUTOGEN); symmetry; exact E1|].
  destruct (String.eqb "crewai" s) eqn:E2;
    [apply String.eqb_eq in E2; exfalso; apply (Hs CREWAI); symmetry; exact E2|].
  destruct (String.eqb "langchain" s) eqn:E3;
    [apply String.eqb_eq in E3; exfalso; apply (Hs LANGCHAIN); symmetry; exact E3|].
  destruct (String.eqb "langgraph" s) eqn:E4;
    [apply String.eqb_eq in E4; exfalso; apply (Hs LANGGRAPH); symmetry; exact E4|].
  destruct (String.eqb "semantic_kernel" s) eqn:E5;
    [apply String.eqb_eq in E5; exfalso; apply (Hs SEMANTIC_KERNEL); symmetry; exact E5|].
  reflexivity.
Qed.


(** The development cost in closed form. *)
Lemma calculate_development_cost_exact (f : Framework) :
  exists (base : Z) (cm : Q),
    0 < inject_Z base /\ 0 < cm /\
    forall team_size complexity_factor timeline_months,
      ROI.calculate_development_cost (F:=Q) (value f) team_size complexity_factor
        timeline_months
      = Ok (Qround_nd
              (inject_Z base * cm * complexity_factor
               * ROI.py_min (if (team_size >? 3)%Z
                             then 1.0 + inject_Z (team_size - 3) * 0.15
                             else 1.0) 2.0
               * (if (timeline_months <? 4)%Z then 1.4
                  else if (timeline_months <? 6)%Z then 1.2
                  else if (timeline_months >? 12)%Z then 0.9
                  else 1.0)) 2).
Proof.
  destruct f; eexists; eexists; (split; [|split; [|intros; reflexivity]]);
    reflexivity.
Qed.

Lemma py_min_spec (a b : Q) :
  (b < a /\ ROI.py_min a b = b) \/ (a <= b /\ ROI.py_min a b = a).
Proof.
  unfold ROI.py_min. cbn [fltb Q_PyFloat].
  destruct (Qltb b a) eqn:E.
  - left. split; [apply Qltb_lt; exact E | reflexivity].
  - right. split; [apply Qltb_ge; exact E | reflexivity].
Qed.

Lemma team_multiplier_cases (team_size : Z) :
  let tm := ROI.py_min (if (team_size >? 3)%Z
                        then 1.0 + inject_Z (team_size - 3) * 0.15
                        else 1.0) 2.0 in
  ((team_size <= 3)%Z /\ tm = 1.0) \/
  ((4 <= team_size <= 9)%Z /\ tm = 1.0 + inject_Z (team_size - 3) * 0.15) \/
  ((10 <= team_size)%Z /\ tm = 2.0).
Proof.
  cbv zeta.
  destruct (team_size >? 3)%Z eqn:E.
  - apply Z.gtb_lt in E.
    destruct (py_min_spec (1.0 + inject_Z (team_size - 3) * 0.15) 2.0)
      as [[Hlt ->]|[Hle ->]].
    + right. right. split; [|reflexivity].
      destruct (Z_lt_le_dec team_size 10) as [Hs|Hs]; [exfalso | exact Hs].
      assert (Hs9 : (team_size <= 9)%Z) by lia. clear Hs.
      rewrite inject_Z_sub in Hlt. z_to_Q. lra.
    + right. left. split; [|reflexivity].
      destruct (Z_lt_le_dec team_size 10) as [Hs|Hs]; [lia | exfalso].
      rewrite inject_Z_sub in Hle. z_to_Q. lra.
  - left. split.
    + rewrite Z.gtb_ltb in E. apply Z.ltb_ge in E. exact E.
    + destruct (py_min_spec 1.0 2.0) as [[Hlt _]|[_ ->]]; [lra | reflexivity].
Qed.



Lemma team_multiplier_mono (t1 t2 : Z) :
  (t1 <= t2)%Z ->
  ROI.py_min (if (t1 >? 3)%Z then 1.0 + inject_Z (t1 - 3) * 0.15 else 1.0) 2.0
  <= ROI.py_min (if (t2 >? 3)%Z then 1.0 + inject_Z (t2 - 3) * 0.15 else 1.0) 2.0.
Proof.
  intros Ht.
  destruct (team_multiplier_cases t1) as [[B1 ->]|[[B1 ->]|[B1 ->]]];
  destruct (team_multiplier_cases t2) as [[B2 ->]|[[B2 ->]|[B2 ->]]];
  try lia; rewrite ?inject_Z_sub; z_bounds_to_Q; lra.
Qed.

Lemma team_multiplier_pos (t : Z) :
  0 < ROI.py_min (if (t >? 3)%Z then 1.0 + inject_Z (t - 3) * 0.15 else 1.0) 2.0.
Proof.
  destruct (team_multiplier_cases t) as [[B ->]|[[B ->]|[B ->]]];
  rewrite ?inject_Z_sub; z_bounds_to_Q; lra.
Qed.

Lemma timeline_multiplier_cases (tm : Z) :
  let x := if (tm <? 4)%Z then 1.4
           else if (tm <? 6)%Z then 1.2
           else if (tm >? 12)%Z then 0.9 else 1.0 in
  ((tm < 4)%Z /\ x = 1.4) \/ ((4 <= tm < 6)%Z /\ x = 1.2) \/
  ((6 <= tm <= 12)%Z /\ x = 1.0) \/ ((12 < tm)%Z /\ x = 0.9).
Proof.
  cbv zeta.
  destruct (tm <? 4)%Z eqn:E4; [left; split; [apply Z.ltb_lt; exact E4 | reflexivity]|].
  apply Z.ltb_ge in E4.
  destruct (tm <? 6)%Z eqn:E6;
    [right; left; split; [apply Z.ltb_lt in E6; lia | reflexivity]|].
  apply Z.ltb_ge in E6.
  destruct (tm >? 12)%Z eqn:E12.
  - right; right; right. split; [apply Z.gtb_lt in E12; lia | reflexivity].
  - right; right; left. split; [|reflexivity].
    rewrite Z.gtb_ltb in E12. apply Z.ltb_ge in E12. lia.
Qed.



End DevelopmentCost.

(** ** Cash-flow projection *)

Section CashFlow.

Local Open Scope Q_scope.

Variables initial_investment monthly_savings : Q.

(** The state of the loop after the months [0 .. n-1]. *)
Lemma cash_flow_loop (n : nat) :
  exists l cumulative,
    fold_left (ROI.cash_flow_step initial_investment monthly_savings)
      (map (fun i => (0 + Z.of_nat i)%Z) (seq 0 n)) ([], - initial_investment)
    = (l, cumulative) /\
    List.length l = n /\
    cumulative == - initial_investment + inject_Z (Z.of_nat (pred n)) * monthly_savings /\
    forall i, (i < n)%nat ->
      exists e,
        nth_error l i = Some e /\
        ROI.month e = Z.of_nat i /\
        ROI.cumulative_cash_flow e
        == - initial_investment + inject_Z (Z.of_nat i) * monthly_savings /\
        ROI.cash_flow e
        = (if (Z.of_nat i =? 0)%Z then - initial_investment else monthly_savings).
Proof.
  induction n as [|n (l & c & Hf & Hlen & Hc & Hnth)].
  - exists [], (- initial_investment).
    split; [reflexivity|]. split; [reflexivity|].
    split; [simpl; ring|]. intros i Hi. lia.
  - rewrite seq_S, map_app, fold_left_app, Hf.
    cbn [plus map fold_left ROI.cash_flow_step]. rewrite Z.add_0_l.
    destruct (Z.of_nat n =? 0)%Z eqn:E0.
    + apply Z.eqb_eq in E0. assert (n = 0)%nat by lia. subst n.
      destruct l; [|discriminate].
      eexists. eexists. split; [reflexivity|].
      split; [reflexivity|]. split; [exact Hc|].
      intros i Hi. assert (i = 0)%nat by lia. subst i.
      eexists. split; [reflexivity|].
      cbn [ROI.month ROI.cumulative_cash_flow ROI.cash_flow].
      split; [reflexivity|]. split; [exact Hc | reflexivity].
    + apply Z.eqb_neq in E0.
      eexists. eexists. split; [reflexivity|].
      split; [rewrite length_app, Hlen; simpl; lia|].
      assert (Hc' : c + monthly_savings
                    == - initial_investment + inject_Z (Z.of_nat n) * monthly_savings).
      { rewrite Hc. replace (Z.of_nat n) with (Z.of_nat (pred n) + 1)%Z by lia.
        rewrite inject_Z_plus. change (inject_Z 1) with 1. ring. }
      split; [exact Hc'|].
      intros i Hi.
      destruct (Nat.eq_dec i n) as [->|Hne].
      * eexists. split.
        -- rewrite nth_error_app2, Hlen, Nat.sub_diag by lia. reflexivity.
        -- cbn [ROI.month ROI.cumulative_cash_flow ROI.cash_flow].
           split; [reflexivity|]. split; [exact Hc'|].
           apply Z.eqb_neq in E0. rewrite E0. reflexivity.
      * destruct (Hnth i) as (e & He & Hrest); [lia|].
        exists e. split; [|exact Hrest].
        rewrite nth_error_app1 by lia. exact He.
Qed.

Lemma cash_flow_projection_entries (periods : Z) :
  List.length (ROI._generate_cash_flow_projection initial_investment monthly_savings periods)
  = Z.to_nat (periods + 1) /\
  forall m, (0 <= m <= periods)%Z ->
    exists e,
      nth_error (ROI._generate_cash_flow_projection initial_investment
                   monthly_savings periods) (Z.to_nat m) = Some e /\
      ROI.month e = m /\
      ROI.cumulative_cash_flow e == - initial_investment + inject_Z m * monthly_savings /\
      ROI.cash_flow e = (if (m =? 0)%Z then - initial_investment else monthly_savings).
Proof.
  unfold ROI._generate_cash_flow_projection, range.
  replace (periods + 1 - 0)%Z with (periods + 1)%Z by lia.
  destruct (cash_flow_loop (Z.to_nat (periods + 1))) as (l & c & Hf & Hlen & _ & Hnth).
  change (- initial_investment)%py with (- initial_investment).
  rewrite Hf. cbn [fst].
  split; [exact Hlen|].
  intros m Hm.
  destruct (Hnth (Z.to_nat m)) as (e & He & Hmo & Hcu & Hcf); [lia|].
  rewrite Z2Nat.id in * by lia.
  exists e. repeat split; assumption.
Qed.

End CashFlow.



(** ** Comprehensive ROI analysis *)

Section Comprehensive.

Local Open Scope Q_scope.

Variable pow_frac : Q -> Q -> Q.
Variable now : string.

Hypothesis pow_frac_nonzero : ~ pow_frac (1 + (10 # 100)) (1 / 12) == 0.

Lemma pydiv_nonzero (x y : Q) : ~ y == 0 -> pydiv x y = Returns (x / y).
Proof.
  intros Hy. unfold pydiv. cbn [fzero fquot Q_PyFloat].
  destruct (Qeq_bool y 0) eqn:E; [|reflexivity].
  apply Qeq_bool_iff in E. contradiction.
Qed.

(** The analysis of two known frameworks, in closed form. *)
Lemma calculate_comprehensive_roi_exact
    (f g : Framework) (m : ModelProvider) (r team timeline period : Z)
    (cf : Q) (risk : string) :
  exists bc bt dev v,
    calculate_monthly_cost (F:=Q) f m r None = Returns bc /\
    calculate_monthly_cost (F:=Q) g m r None = Returns bt /\
    ROI.calculate_development_cost (F:=Q) (value g) team cf timeline = Ok dev /\
    let adj := dev * dict_get_default ROI.risk_factors risk 1.0 in
    let ms := total_cost bc - total_cost bt in
    let payback := if Qltb 0 ms then Some (adj / ms) else None in
    let roi := if Qltb 0 adj then (ms * inject_Z period - adj) / adj * 100 else 0 in
    _calculate_npv pow_frac adj ms period = Returns v /\
    ROI.calculate_comprehensive_roi pow_frac now (value f) (value g) m r team
      timeline period cf risk
    = Ok {| ROI.migration_summary :=
              {| ROI.from_framework := value f;
                 ROI.to_framework := value g;
                 ROI.model := ModelProvider_value m;
                 ROI.requests_per_month := r;
                 ROI.analysis_period_months := period |};
            ROI.cost_analysis :=
              {| ROI.current_monthly_cost := total_cost bc;
                 ROI.target_monthly_cost := total_cost bt;
                 ROI.monthly_savings := ms;
                 ROI.annual_savings := ms * 12;
                 ROI.development_cost := adj;
                 ROI.risk_factor := dict_get_default ROI.risk_factors risk 1.0 |};
            ROI.roi_metrics :=
              {| ROI.payback_period_months := payback;
                 ROI.roi_percentage := roi;
                 ROI.npv := v;
                 ROI.break_even_month :=
                   match payback with
                   | Some p =>
                       if negb (Qeq_bool p 0) && Qltb 0 p
                       then Some (int_of_float p + 1)%Z
                       else None
                   | None => None
                   end;
                 ROI.total_3_year_savings := ms * inject_Z period |};
            ROI.cash_flow_projection :=
              ROI._generate_cash_flow_projection adj ms period;
            ROI.recommendations :=
              ROI._generate_roi_recommendations ms payback roi v;
            ROI.generated_at := now |}.
Proof.
  destruct (calculate_monthly_cost_returns f m r None) as [bc Hc].
  destruct (calculate_monthly_cost_returns g m r None) as [bt Ht].
  destruct (calculate_development_cost_exact g) as (base & cm & _ & _ & Hdev).
  specialize (Hdev team cf timeline).
  eexists bc, bt, _.
  set (adj := _ * dict_get_default ROI.risk_factors risk 1.0).
  destruct (@_calculate_npv_returns pow_frac pow_frac_nonzero adj
              (total_cost bc - total_cost bt) period) as [v [Hv _]].
  exists v.
  split; [exact Hc|]. split; [exact Ht|]. split; [exact Hdev|].
  cbv zeta. fold adj. split; [exact Hv|].
  unfold ROI.calculate_comprehensive_roi.
  rewrite !Framework_of_value_value. cbn [result_bind].
  rewrite Hc, Ht, Hdev. cbn [lift result_bind]. fold adj.
  set (ms := total_cost bc - total_cost bt) in *.
  assert (Hroi :
    (if Qltb 0 adj
     then result_bind (lift (pydiv (ms * inject_Z period - adj) adj))
            (fun q => Ok (q * 100))
     else Ok 0)
    = Ok (if Qltb 0 adj then (ms * inject_Z period - adj) / adj * 100 else 0)).
  { destruct (Qltb 0 adj) eqn:E; [|reflexivity].
    apply Qltb_lt in E. rewrite pydiv_nonzero by lra. reflexivity. }
  destruct (Qltb 0 ms) eqn:Ems.
  - apply Qltb_lt in Ems. rewrite pydiv_nonzero by lra.
    cbn [lift result_bind]. rewrite Hv. cbn [lift result_bind].
    rewrite Hroi. reflexivity.
  - cbn [result_bind]. rewrite Hv. cbn [lift result_bind].
    rewrite Hroi. reflexivity.
Qed.

Lemma int_of_float_pos (p : Q) :
  0 < p -> inject_Z (int_of_float p) <= p /\ p < inject_Z (int_of_float p) + 1.
Proof.
  intros Hp.
  assert (E : int_of_float p = Qfloor p).
  { unfold int_of_float. destruct p as [n d]. cbn [Qnum Qden Qfloor].
    apply Z.quot_div_nonneg; [|lia].
    unfold Qlt in Hp. simpl in Hp. lia. }
  rewrite E. split; [apply Qfloor_le|].
  rewrite <- inject_Z_succ. apply Qlt_floor.
Qed.

End Comprehensive.







(** ** Recommendations *)

Section Recommendations.

Local Open Scope Q_scope.

(** The list holds one payback recommendation, then one NPV recommendation,
    then one ROI recommendation exactly when the ROI is positive; the payback
    recommendation is "Financial Risk" exactly when there is no payback
    period or a negative one, and "Quick ROI" up to 12 months included. *)
Theorem roi_recommendations_structure
    (monthly_savings : Q) (payback_months : option Q) (roi_percentage npv : Q) :
  exists r1 r2 rest,
    ROI._generate_roi_recommendations monthly_savings payback_months
      roi_percentage npv = r1 :: r2 :: rest /\
    match payback_months with
    | None => ROI.category r1 = "Financial Risk"%string
    | Some p =>
        (p < 0 /\ ROI.category r1 = "Financial Risk"%string) \/
        (0 <= p <= 12 /\ ROI.category r1 = "Quick ROI"%string) \/
        (12 < p <= 24 /\ ROI.category r1 = "Moderate ROI"%string) \/
        (24 < p /\ ROI.category r1 = "Long Payback"%string)
    end /\
    In (ROI.category r2)
       ["High Value"; "Positive Value"; "Break Even"; "Negative Value"]%string /\
    ((roi_percentage <= 0 /\ rest = []) \/
     (0 < roi_percentage /\
      exists r3, rest = [r3] /\
        In (ROI.category r3) ["Excellent ROI"; "Good ROI"; "Positive ROI"]%string)).
Proof.
  unfold ROI._generate_roi_recommendations. cbv zeta.
  assert (Hle : forall x y : Q, Qle_bool x y = false -> y < x).
  { intros x y E. apply Qnot_le_lt. intros H. apply Qle_bool_iff in H. congruence. }
  destruct payback_months as [p|];
    [destruct (Qltb p 0) eqn:P0;
     [|destruct (Qle_bool p 12) eqn:P12; [|destruct (Qle_bool p 24) eqn:P24]]|];
    (destruct (Qltb 50000 npv) eqn:N1;
     [|destruct (Qltb 10000 npv) eqn:N2; [|destruct (Qltb (-10000) npv) eqn:N3]]);
    (destruct (Qltb 100 roi_percentage) eqn:R1;
     [|destruct (Qltb 50 roi_percentage) eqn:R2;
       [|destruct (Qltb 0 roi_percentage) eqn:R3]]);
    cbn [app];
    repeat match goal with
      | H : Qltb _ _ = true |- _ => apply Qltb_lt in H
      | H : Qltb _ _ = false |- _ => apply Qltb_ge in H
      | H : Qle_bool _ _ = true |- _ => apply Qle_bool_iff in H
      | H : Qle_bool _ _ = false |- _ => apply Hle in H
      end;
    do 3 eexists; (split; [reflexivity|]);
    cbn [ROI.category];
    (split;
     [first [ reflexivity
            | left; split; [lra | reflexivity]
            | right; left; split; [lra | reflexivity]
            | right; right; left; split; [lra | reflexivity]
            | right; right; right; split; [lra | reflexivity] ]|]);
    (split; [simpl; auto 6|]);
    first [ left; split; [lra | reflexivity]
          | right; split; [lra|]; eexists; split; [reflexivity | simpl; auto] ].
Qed.

End Recommendations.

Section Discouraged.

Local Open Scope Q_scope.

Lemma recommendations_without_payback (ms roi v : Q) :
  roi <= 0 ->
  exists r1 r2,
    ROI._generate_roi_recommendations ms None roi v = [r1; r2] /\
    ROI.category r1 = "Financial Risk"%string /\ ROI.level r1 = "high"%string.
Proof.
  intros Hroi. unfold ROI._generate_roi_recommendations. cbv zeta.
  assert (R1 : Qltb 100 roi = false) by (apply Qltb_ge; lra).
  assert (R2 : Qltb 50 roi = false) by (apply Qltb_ge; lra).
  assert (R3 : Qltb 0 roi = false) by (apply Qltb_ge; lra).
  rewrite R1, R2, R3. cbn [app].
  destruct (Qltb 50000 v); [do 2 eexists; repeat split|].
  destruct (Qltb 10000 v); [do 2 eexists; repeat split|].
  destruct (Qltb (-10000) v); do 2 eexists; repeat split.
Qed.

Lemma roi_not_positive (adj ms : Q) (period : Z) :
  ms <= 0 -> (0 <= period)%Z ->
  (if Qltb 0 adj then (ms * inject_Z period - adj) / adj * 100 else 0) <= 0.
Proof.
  intros Hms Hper.
  destruct (Qltb 0 adj) eqn:E; [|apply Qle_refl].
  apply Qltb_lt in E.
  assert (Hp : 0 <= inject_Z period)
    by (change 0 with (inject_Z 0); apply inject_Z_le; exact Hper).
  assert (Hmp : ms * inject_Z period <= 0).
  { rewrite Qmult_comm.
    setoid_replace 0 with (inject_Z period * 0) by ring.
    rewrite !(Qmult_comm (inject_Z period)).
    apply Qmult_le_compat_r; assumption. }
  assert (Hq : (ms * inject_Z period - adj) / adj <= 0)
    by (apply Qle_shift_div_r; lra).
  set (q := (ms * inject_Z period - adj) / adj) in *. lra.
Qed.

Lemma semantic_kernel_cheapest (g : Framework) (m : ModelProvider) (r : Z) :
  (0 <= r)%Z ->
  exists b bg,
    calculate_monthly_cost (F:=Q) SEMANTIC_KERNEL m r None = Returns b /\
    calculate_monthly_cost (F:=Q) g m r None = Returns bg /\
    total_cost b <= total_cost bg.
Proof.
  intros Hr.
  destruct (@unit_cost_chain m None I)
    as (c1 & c2 & c3 & c4 & c5 & H1 & H2 & H3 & H4 & H5 & L12 & L23 & L34 & L45).
  destruct g.
  - apply (total_cost_le_of_unit_cost_le Hr H1 H2). lra.
  - apply (total_cost_le_of_unit_cost_le Hr H1 H3). lra.
  - apply (total_cost_le_of_unit_cost_le Hr H1 H4). lra.
  - apply (total_cost_le_of_unit_cost_le Hr H1 H5). lra.
  - apply (total_cost_le_of_unit_cost_le Hr H1 H1). lra.
Qed.

End Discouraged.





(** ** The sensitivity analysis *)

Section Sensitivity.

Local Open Scope Q_scope.

Variable pow_frac : Q -> Q -> Q.
Variable now : string.

Hypothesis pow_frac_nonzero : ~ pow_frac (1 + (10 # 100)) (1 / 12) == 0.

(** The analysis of two known frameworks returns, and its development cost
    is the rounded cost of the target times the risk factor. *)
Lemma comprehensive_roi_development_cost
    (f g : Framework) (m : ModelProvider) (r team timeline period : Z)
    (cf : Q) (risk : string) :
  exists a dev,
    ROI.calculate_comprehensive_roi pow_frac now (value f) (value g) m r team
      timeline period cf risk = Ok a /\
    ROI.calculate_development_cost (F:=Q) (value g) team cf timeline = Ok dev /\
    ROI.development_cost (ROI.cost_analysis a)
    = dev * dict_get_default ROI.risk_factors risk 1.0.
Proof.
  destruct (@calculate_comprehensive_roi_exact pow_frac now pow_frac_nonzero
              f g m r team timeline period cf risk)
    as (bc & bt & dev & v & _ & _ & Hdev & H).
  cbv zeta in H. destruct H as [_ H].
  eexists _, dev. split; [exact H|]. split; [exact Hdev | reflexivity].
Qed.

Lemma volume_step_returns
    (f g : Framework) (m : ModelProvider) (base team timeline : Z) (cf : Q)
    (acc : list ROI.VolumeSensitivity.t) (volume : Q) :
  base <> 0%Z ->
  exists e,
    ROI.volume_step pow_frac now (value f) (value g) m base team timeline cf
      (Ok acc) volume = Ok (acc ++ [e]) /\
    ROI.VolumeSensitivity.volume e = int_of_float volume /\
    ROI.VolumeSensitivity.volume_change e
    = (volume - inject_Z base) / inject_Z base * 100.
Proof.
  intros Hb.
  destruct (comprehensive_roi_development_cost f g m (int_of_float volume) team
              timeline 36 cf "growth") as (a & _ & Ha & _).
  unfold ROI.volume_step. cbn [result_bind]. rewrite Ha. cbn [result_bind].
  rewrite pydiv_nonzero.
  - cbn [lift result_bind]. eexists. split; [reflexivity|].
    split; reflexivity.
  - intros H. apply Hb. unfold Qeq in H. cbn in H. lia.
Qed.

Lemma volume_step_raises
    (f g : Framework) (m : ModelProvider) (team timeline : Z) (cf : Q)
    (acc : list ROI.VolumeSensitivity.t) (volume : Q) :
  ROI.volume_step pow_frac now (value f) (value g) m 0 team timeline cf
    (Ok acc) volume = Error (EngineError ZeroDivisionError).
Proof.
  destruct (comprehensive_roi_development_cost f g m (int_of_float volume) team
              timeline 36 cf "growth") as (a & _ & Ha & _).
  unfold ROI.volume_step. cbn [result_bind]. rewrite Ha. cbn [result_bind].
  reflexivity.
Qed.

Lemma complexity_step_returns
    (f g : Framework) (m : ModelProvider) (base team timeline : Z)
    (acc : list ROI.ComplexitySensitivity.t) (complexity : Q) :
  exists e dev,
    ROI.complexity_step pow_frac now (value f) (value g) m base team timeline
      (Ok acc) complexity = Ok (acc ++ [e]) /\
    ROI.ComplexitySensitivity.complexity_factor e = complexity /\
    ROI.calculate_development_cost (F:=Q) (value g) team complexity timeline = Ok dev /\
    ROI.ComplexitySensitivity.development_cost e = dev * 1.1.
Proof.
  destruct (comprehensive_roi_development_cost f g m base team timeline 36
              complexity "growth") as (a & dev & Ha & Hdev & Hcost).
  unfold ROI.complexity_step. cbn [result_bind]. rewrite Ha. cbn [result_bind].
  eexists _, dev. split; [reflexivity|]. split; [reflexivity|].
  split; [exact Hdev|]. cbn [ROI.ComplexitySensitivity.development_cost].
  rewrite Hcost. reflexivity.
Qed.

(** The development cost does not decrease with the complexity factor. *)
Lemma development_cost_complexity_mono
    (g : Framework) (team timeline : Z) (c1 c2 d1 d2 : Q) :
  c1 <= c2 ->
  ROI.calculate_development_cost (F:=Q) (value g) team c1 timeline = Ok d1 ->
  ROI.calculate_development_cost (F:=Q) (value g) team c2 timeline = Ok d2 ->
  d1 * 1.1 <= d2 * 1.1.
Proof.
  intros Hc H1 H2.
  destruct (calculate_development_cost_exact g) as (base & cm & Hb & Hcm & E).
  rewrite E in H1, H2. injection H1 as <-. injection H2 as <-.
  apply Qmult_le_compat_r; [|lra].
  apply Qround_nd_le.
  pose proof (team_multiplier_pos team) as HT.
  set (T := ROI.py_min (if (team >? 3)%Z then _ else _) 2.0) in *.
  assert (HL : 0 < (if (timeline <? 4)%Z then 1.4
                    else if (timeline <? 6)%Z then 1.2
                    else if (timeline >? 12)%Z then 0.9 else 1.0)).
  { destruct (timeline_multiplier_cases timeline)
      as [[_ ->]|[[_ ->]|[[_ ->]|[_ ->]]]]; lra. }
  set (L := if (timeline <? 4)%Z then _ else _) in *.
  apply Qmult_le_compat_r; [|apply Qlt_le_weak; exact HL].
  apply Qmult_le_compat_r; [|apply Qlt_le_weak; exact HT].
  rewrite !(Qmult_comm (inject_Z base * cm)).
  apply Qmult_le_compat_r; [exact Hc|].
  apply Qmult_le_0_compat; apply Qlt_le_weak; assumption.
Qed.

Lemma int_of_float_ratio (b n : Z) (d : positive) :
  int_of_float (inject_Z b * (n # d)) = Z.quot (b * n) (Zpos d).
Proof. unfold int_of_float. cbn [Qmult inject_Z Qnum Qden]. reflexivity. Qed.

Lemma volume_quotients (b : Z) :
  (Z.quot (b * 5) 10 = Z.quot b 2 /\ Z.quot (b * 8) 10 = Z.quot (4 * b) 5 /\
   Z.quot (b * 12) 10 = Z.quot (6 * b) 5 /\ Z.quot (b * 15) 10 = Z.quot (3 * b) 2)%Z.
Proof. repeat split; Z.to_euclidean_division_equations; lia. Qed.

Lemma int_of_float_inject_Z (b : Z) : int_of_float (inject_Z b) = b.
Proof. unfold int_of_float. cbn [inject_Z Qnum Qden]. apply Z.quot_1_r. Qed.


End Sensitivity.


(** ** Scenario generator *)

Section RoiScenarios.

Local Open Scope Q_scope.

Lemma first_item_sorted_min (comparison : dict (ComparisonEntry (F:=Q))) :
  comparison <> [] ->
  exists best,
    first_item (Scenarios.sorted_by_total comparison) = Ok best /\
    In best comparison /\
    Forall (fun x => total_cost (costs (snd best)) <= total_cost (costs (snd x))) comparison.
Proof.
  intros Hne.
  pose proof (sorted_perm (fun x => total_cost (costs (snd x))) comparison) as Hperm.
  pose proof (sorted_sorted (fun x => total_cost (costs (snd x))) comparison) as Hs.
  fold (Scenarios.sorted_by_total comparison) in Hs, Hperm.
  destruct (Scenarios.sorted_by_total comparison) as [|best rest] eqn:E.
  - apply Permutation_nil in Hperm. congruence.
  - exists best. split; [reflexivity|].
    split; [apply (Permutation_in _ Hperm); left; reflexivity|].
    apply (Permutation_Forall Hperm).
    inversion Hs as [|? ? _ Hall]; subst.
    constructor; [apply Qle_refl | exact Hall].
Qed.

Lemma development_cost_default_pos (k : string) :
  0 < inject_Z (dict_get_default Scenarios.development_costs k 35000%Z).
Proof.
  unfold dict_get_default, Scenarios.development_costs. cbn [dict_get].
  repeat match goal with
    | |- context [String.eqb ?a k] => destruct (String.eqb a k)
    end; reflexivity.
Qed.

Lemma roi_scenario_step_ok (best : string * ComparisonEntry (F:=Q))
    (acc : dict Scenarios.RoiScenario.t) (item : string * ComparisonEntry (F:=Q)) :
  total_cost (costs (snd best)) <= total_cost (costs (snd item)) ->
  exists e,
    Scenarios.roi_scenario_step best (Ok acc) item = Ok (dict_set acc (fst item) e) /\
    roi_entry_ok (fst item, e) /\
    Scenarios.RoiScenario.framework_name e = framework_name (snd item).
Proof.
  intros Hle. destruct item as [k d]. cbn [fst snd] in *.
  unfold Scenarios.roi_scenario_step. cbn [result_bind].
  pose proof (development_cost_default_pos k) as Hdev.
  set (dev := dict_get_default Scenarios.development_costs k 35000%Z) in *.
  destruct (negb (String.eqb k (fst best))) eqn:Ek.
  - set (diff := (total_cost (costs d) - total_cost (costs (snd best))) * 12).
    assert (Hdiff : 0 <= diff) by (unfold diff; lra).
    destruct (Qltb 0 diff) eqn:Ed.
    + apply Qltb_lt in Ed. rewrite pydiv_nonzero by lra.
      cbn [lift result_bind].
      eexists. split; [reflexivity|]. split; [|reflexivity].
      unfold roi_entry_ok.
      cbn [snd Scenarios.RoiScenario.annual_cost_vs_best
           Scenarios.RoiScenario.payback_period_months
           Scenarios.RoiScenario.development_cost].
      split; [exact Hdiff|].
      eexists. split; [reflexivity|].
      split; [apply Qle_shift_div_l; lra|].
      split; [intros _; field; lra | intros E0; lra].
    + cbn [result_bind].
      eexists. split; [reflexivity|]. split; [|reflexivity].
      unfold roi_entry_ok.
      cbn [snd Scenarios.RoiScenario.annual_cost_vs_best
           Scenarios.RoiScenario.payback_period_months
           Scenarios.RoiScenario.development_cost].
      apply Qltb_ge in Ed.
      split; [exact Hdiff|].
      eexists. split; [reflexivity|].
      split; [apply Qle_refl|].
      split; [intros H; lra | intros _; reflexivity].
  - cbn [result_bind].
    eexists. split; [reflexivity|]. split; [|reflexivity].
    unfold roi_entry_ok.
    cbn [snd Scenarios.RoiScenario.annual_cost_vs_best
         Scenarios.RoiScenario.payback_period_months
         Scenarios.RoiScenario.development_cost].
    split; [apply Qle_refl|].
    eexists. split; [reflexivity|].
    split; [apply Qle_refl|].
    split; [intros H; lra | intros _; reflexivity].
Qed.

Lemma roi_scenarios_fold (best : string * ComparisonEntry (F:=Q))
    (items : list (string * ComparisonEntry (F:=Q)))
    (acc : dict Scenarios.RoiScenario.t) :
  NoDup (map fst acc ++ map fst items) ->
  Forall (fun x => total_cost (costs (snd best)) <= total_cost (costs (snd x))) items ->
  exists res,
    fold_left (Scenarios.roi_scenario_step best) items (Ok acc) = Ok (acc ++ res) /\
    map fst res = map fst items /\
    Forall roi_entry_ok res /\
    Forall2 (fun kv x => Scenarios.RoiScenario.framework_name (snd kv)
                         = framework_name (snd x)) res items.
Proof.
  revert acc. induction items as [|item items IH]; intros acc Hnd Hall.
  - exists []. rewrite app_nil_r. repeat split; constructor.
  - inversion Hall as [|? ? Hle Hall']; subst.
    destruct (@roi_scenario_step_ok best acc item Hle) as (e & He & Hok & Hname).
    cbn [fold_left]. rewrite He.
    cbn [map] in Hnd.
    rewrite dict_set_fresh.
    + destruct (IH (acc ++ [(fst item, e)])) as (res & Hf & Hk & Hr & Hn).
      * rewrite map_app, <- app_assoc. exact Hnd.
      * exact Hall'.
      * exists ((fst item, e) :: res).
        split; [rewrite Hf, <- app_assoc; reflexivity|].
        split; [cbn [map fst]; rewrite Hk; reflexivity|].
        split; constructor; assumption.
    + apply NoDup_remove_2 in Hnd. intros Hin. apply Hnd.
      apply in_or_app. left. exact Hin.
Qed.

End RoiScenarios.



Section ScenarioRecommendations.

Local Open Scope Q_scope.

Lemma first_item_nonempty (A : Type) (l : list A) :
  l <> [] -> exists x, first_item l = Ok x /\ In x l.
Proof.
  destruct l as [|x l]; [congruence|].
  intros _. exists x. split; [reflexivity | left; reflexivity].
Qed.

Lemma last_item_nonempty (A : Type) (l : list A) :
  l <> [] -> exists x, last_item l = Ok x.
Proof.
  intros Hne. unfold last_item.
  destruct (rev l) as [|x r] eqn:E.
  - apply (f_equal (@rev A)) in E. rewrite rev_involutive in E. contradiction.
  - exists x. reflexivity.
Qed.

Lemma sorted_by_total_nonempty (comparison : dict (ComparisonEntry (F:=Q))) :
  comparison <> [] -> Scenarios.sorted_by_total comparison <> [].
Proof.
  intros Hne E.
  pose proof (sorted_perm (fun x => total_cost (costs (snd x))) comparison) as Hperm.
  fold (Scenarios.sorted_by_total comparison) in Hperm.
  rewrite E in Hperm. apply Permutation_nil in Hperm. contradiction.
Qed.

(** The high-volume loop adds nothing or one recommendation, for one of the
    two frameworks it considers. *)
Lemma performance_loop_spec
    (sorted_frameworks items : list (string * ComparisonEntry (F:=Q)))
    (recommendations : list Scenarios.Recommendation) :
  (items <> [] -> sorted_frameworks <> []) ->
  exists added,
    Scenarios.performance_loop sorted_frameworks items recommendations
    = Ok (recommendations ++ added) /\
    (added = [] \/
     exists r,
       added = [r] /\
       Scenarios.category r = "Performance & Scale"%string /\
       In (Scenarios.framework r) ["semantic_kernel"; "autogen"]%string /\
       In (Scenarios.framework r) (map fst items)).
Proof.
  intros Hs.
  induction items as [|[k d] rest IH]; cbn [Scenarios.performance_loop].
  - exists []. rewrite app_nil_r. split; [reflexivity | left; reflexivity].
  - assert (Hne : sorted_frameworks <> []) by (apply Hs; discriminate).
    assert (IH' :
      exists added,
        Scenarios.performance_loop sorted_frameworks rest recommendations
        = Ok (recommendations ++ added) /\
        (added = [] \/
         exists r,
           added = [r] /\
           Scenarios.category r = "Performance & Scale"%string /\
           In (Scenarios.framework r) ["semantic_kernel"; "autogen"]%string /\
           In (Scenarios.framework r) (map fst ((k, d) :: rest)))).
    { destruct IH as (added & Ha & Hcase); [intros _; exact Hne|].
      exists added. split; [exact Ha|].
      destruct Hcase as [->|(r & -> & Hc & Hf & Hin)]; [left; reflexivity|].
      right. exists r. repeat split; try assumption. right. exact Hin. }
    destruct (existsb (String.eqb k) ["semantic_kernel"; "autogen"]%string) eqn:Ek;
      [|exact IH'].
    destruct (last_item_nonempty Hne) as [most Hmost].
    destruct (first_item_nonempty Hne) as [cheap [Hcheap _]].
    rewrite Hmost. cbn [result_bind].
    destruct (Qltb (total_cost (costs d)) (total_cost (costs (snd most)) * 1.2));
      [|exact IH'].
    rewrite Hcheap. cbn [result_bind].
    eexists. split; [reflexivity|].
    right. eexists. split; [reflexivity|].
    cbn [Scenarios.category Scenarios.framework map fst].
    split; [reflexivity|]. split; [|left; reflexivity].
    apply existsb_exists in Ek. destruct Ek as [x [Hx Ex]].
    apply String.eqb_eq in Ex. subst x. exact Hx.
Qed.

End ScenarioRecommendations.

(** Close a leaf of the case analysis on [_generate_recommendations]. *)
Ltac recommendation_leaf :=
  eexists; split; [reflexivity|];
  split; [simpl; lia|];
  split;
  [ cbn [map app Scenarios.category];
    repeat match goal with
      | H : Scenarios.category _ = _ |- _ => rewrite H
      end;
    repeat constructor; simpl; intuition discriminate
  | repeat (apply Forall_cons || apply Forall_nil);
    cbn [Scenarios.category Scenarios.framework];
    first [ left; repeat split; solve [eauto | lia]
          | right; left; repeat split; solve [eauto | lia]
          | right; right; left; split; reflexivity
          | right; right; right; split; reflexivity ] ].

(** [_generate_recommendations] raises [IndexError] exactly for an empty
    comparison with fewer than 10,000 requests.  Otherwise it returns at most
    three recommendations, of distinct categories: "Budget Optimization"
    only below 10,000 requests and for the cheapest framework, "Performance &
    Scale" only above 50,000 and only for "semantic_kernel" or "autogen"
    taken from the comparison, "Enterprise Ready" for "semantic_kernel" and
    "Innovation & Flexibility" for "autogen". *)
Theorem scenario_recommendations_structure
    (scenario : Scenarios.Scenario ModelProvider)
    (comparison : dict (ComparisonEntry (F:=Q))) :
  ((Scenarios.requests_per_month scenario < 10000)%Z /\ comparison = [] /\
   Scenarios._generate_recommendations scenario comparison = Error IndexError) \/
  (~ ((Scenarios.requests_per_month scenario < 10000)%Z /\ comparison = []) /\
   exists recs,
     Scenarios._generate_recommendations scenario comparison = Ok recs /\
     (List.length recs <= 3)%nat /\
     NoDup (map Scenarios.category recs) /\
     Forall (fun r =>
               (Scenarios.category r = "Budget Optimization"%string /\
                (Scenarios.requests_per_month scenario < 10000)%Z /\
                exists best,
                  first_item (Scenarios.sorted_by_total comparison) = Ok best /\
                  Scenarios.framework r = fst best) \/
               (Scenarios.category r = "Performance & Scale"%string /\
                (50000 < Scenarios.requests_per_month scenario)%Z /\
                In (Scenarios.framework r) ["semantic_kernel"; "autogen"]%string /\
                In (Scenarios.framework r) (map fst comparison)) \/
               (Scenarios.category r = "Enterprise Ready"%string /\
                Scenarios.framework r = "semantic_kernel"%string) \/
               (Scenarios.category r = "Innovation & Flexibility"%string /\
                Scenarios.framework r = "autogen"%string)) recs).
Proof.
  unfold Scenarios._generate_recommendations. cbv zeta.
  set (rpm := Scenarios.requests_per_month scenario).
  set (enterprise := contains "enterprise" (lower (Scenarios.name scenario))
                     || (rpm >? 75000)%Z).
  set (innovation := contains "research" (lower (Scenarios.name scenario))
                     || contains "startup" (lower (Scenarios.name scenario))).
  destruct (rpm <? 10000)%Z eqn:B.
  - apply Z.ltb_lt in B.
    destruct comparison as [|x comparison'] eqn:Ec.
    + left. split; [exact B|]. split; reflexivity.
    + right. split; [intros [_ H]; discriminate|]. rewrite <- Ec in *.
      assert (Hne : comparison <> []) by (rewrite Ec; discriminate).
      pose proof (sorted_by_total_nonempty Hne) as Hs.
      destruct (first_item_nonempty Hs) as [cheap [Hcheap _]].
      destruct (last_item_nonempty Hs) as [most Hmost].
      rewrite Hcheap, Hmost. cbn [result_bind app].
      replace (rpm >? 50000)%Z with false
        by (symmetry; rewrite Z.gtb_ltb; apply Z.ltb_ge; lia).
      cbn [result_bind].
      destruct enterprise, innovation; recommendation_leaf.
  - apply Z.ltb_ge in B. right.
    split; [intros [H _]; lia|].
    cbn [result_bind].
    destruct (rpm >? 50000)%Z eqn:P.
    + rewrite Z.gtb_ltb in P. apply Z.ltb_lt in P.
      destruct (@performance_loop_spec (Scenarios.sorted_by_total comparison)
                  comparison []) as (added & Hloop & Hcase).
      { apply sorted_by_total_nonempty. }
      rewrite Hloop. cbn [result_bind app].
      destruct Hcase as [->|(r & -> & Hcat & Hfw & Hin)];
        destruct enterprise, innovation; recommendation_leaf.
    + cbn [result_bind].
      destruct enterprise, innovation; recommendation_leaf.
Qed.

(** Close the case of one key of the scenario table. *)
Ltac scenario_case :=
  left; split; [simpl; tauto|];
  eexists; split; [vm_compute; reflexivity|];
  cbn [Scenarios.cost_summary Scenarios.best_option Scenarios.most_expensive
       Scenarios.max_monthly_savings Scenarios.savings_percentage
       Scenarios.best_monthly_cost Scenarios.highest_monthly_cost
       Scenarios.framework_comparison Scenarios.generated_at];
  repeat split;
  first [ reflexivity
        | apply Qle_bool_imp_le; vm_compute; reflexivity
        | apply Qltb_lt; vm_compute; reflexivity ].

(** The analysis of a scenario: a key of the table gives an analysis whose
    comparison has the five frameworks, whose best option is
    "semantic_kernel" and most expensive one "langgraph", with savings that
    are not negative and a percentage below 100, stamped with the clock
    reading; any other key raises [KeyError] for that key. *)
Theorem scenario_analysis_by_key (now : string) (scenario_key : string) :
  (In scenario_key (map fst Scenarios.scenarios) /\
   exists a,
     Scenarios.generate_scenario_analysis now scenario_key = Ok a /\
     List.length (Scenarios.framework_comparison a) = 5%nat /\
     Scenarios.best_option (Scenarios.cost_summary a) = "semantic_kernel"%string /\
     Scenarios.most_expensive (Scenarios.cost_summary a) = "langgraph"%string /\
     (0 <= Scenarios.max_monthly_savings (Scenarios.cost_summary a))%Q /\
     (0 <= Scenarios.savings_percentage (Scenarios.cost_summary a))%Q /\
     (Scenarios.savings_percentage (Scenarios.cost_summary a) < 100)%Q /\
     Scenarios.generated_at a = now) \/
  (~ In scenario_key (map fst Scenarios.scenarios) /\
   Scenarios.generate_scenario_analysis now scenario_key
   = Error (KeyError scenario_key)).
Proof.
  destruct (String.eqb "startup_mvp" scenario_key) eqn:E1;
    [apply String.eqb_eq in E1; subst scenario_key; scenario_case|].
  destruct (String.eqb "saas_growth" scenario_key) eqn:E2;
    [apply String.eqb_eq in E2; subst scenario_key; scenario_case|].
  destruct (String.eqb "enterprise_deployment" scenario_key) eqn:E3;
    [apply String.eqb_eq in E3; subst scenario_key; scenario_case|].
  destruct (String.eqb "ai_research_lab" scenario_key) eqn:E4;
    [apply String.eqb_eq in E4; subst scenario_key; scenario_case|].
  destruct (String.eqb "ecommerce_platform" scenario_key) eqn:E5;
    [apply String.eqb_eq in E5; subst scenario_key; scenario_case|].
  destruct (String.eqb "healthcare_startup" scenario_key) eqn:E6;
    [apply String.eqb_eq in E6; subst scenario_key; scenario_case|].
  destruct (String.eqb "fintech_robo_advisor" scenario_key) eqn:E7;
    [apply String.eqb_eq in E7; subst scenario_key; scenario_case|].
  destruct (String.eqb "content_creation_platform" scenario_key) eqn:E8;
    [apply String.eqb_eq in E8; subst scenario_key; scenario_case|].
  right. split.
  - cbn [map fst Scenarios.scenarios In].
    intros H.
    repeat match goal with
      | H : _ \/ _ |- _ => destruct H as [H|H]
      end;
    try contradiction; subst scenario_key;
    rewrite String.eqb_refl in *; discriminate.
  - unfold Scenarios.generate_scenario_analysis, Scenarios.dict_lookup,
      Scenarios.scenarios.
    cbn [dict_get]. rewrite E1, E2, E3, E4, E5, E6, E7, E8. reflexivity.
Qed.

Section Summary.

Local Open Scope Z_scope.

Lemma dict_set_keys (V : Type) (d : dict V) (k : string) (v : V) (k' : string) :
  In k' (map fst (dict_set d k v)) <-> k' = k \/ In k' (map fst d).
Proof.
  induction d as [|[k0 v0] d IH]; cbn [dict_set map fst In].
  - intuition.
  - destruct (String.eqb k0 k) eqn:E; cbn [map fst In].
    + apply String.eqb_eq in E. subst k0. intuition.
    + rewrite IH. intuition.
Qed.

Lemma dict_set_NoDup (V : Type) (d : dict V) (k : string) (v : V) :
  NoDup (map fst d) -> NoDup (map fst (dict_set d k v)).
Proof.
  induction d as [|[k0 v0] d IH]; cbn [dict_set map fst]; intros Hnd.
  - repeat constructor. intros [].
  - inversion Hnd as [|? ? Hnot Hnd']; subst.
    destruct (String.eqb k0 k) eqn:E; cbn [map fst].
    + constructor; assumption.
    + constructor; [|apply IH; exact Hnd'].
      rewrite dict_set_keys. intros [->|Hin]; [|contradiction].
      rewrite String.eqb_refl in E. discriminate.
Qed.

Lemma dict_set_count (d : dict Z) (k : string) :
  fold_right Z.add 0 (map snd (dict_set d k (dict_get_default d k 0 + 1)))
  = fold_right Z.add 0 (map snd d) + 1 /\
  (Forall (fun kv => 1 <= snd kv) d ->
   Forall (fun kv => 1 <= snd kv) (dict_set d k (dict_get_default d k 0 + 1))).
Proof.
  unfold dict_get_default.
  induction d as [|[k0 v0] d [IHs IHp]]; cbn [dict_set dict_get map snd fold_right].
  - split; [reflexivity|]. intros _. repeat constructor. cbn. lia.
  - destruct (String.eqb k0 k) eqn:E; cbn [map snd fold_right].
    + split; [lia|]. intros Hp. inversion Hp; subst.
      constructor; [cbn in *; lia | assumption].
    + split; [rewrite IHs; lia|]. intros Hp. inversion Hp; subst.
      constructor; [assumption | apply IHp; assumption].
Qed.

Lemma count_wins_fold (all_scenarios : dict Scenarios.Analysis) (acc : dict Z) :
  NoDup (map fst acc) -> Forall (fun kv => 1 <= snd kv) acc ->
  let framework_wins := fold_left Scenarios.count_win all_scenarios acc in
  NoDup (map fst framework_wins) /\
  Forall (fun kv => 1 <= snd kv) framework_wins /\
  fold_right Z.add 0 (map snd framework_wins)
  = fold_right Z.add 0 (map snd acc) + Z.of_nat (List.length all_scenarios) /\
  (forall k, In k (map fst acc) -> In k (map fst framework_wins)) /\
  (forall x, In x all_scenarios ->
     In (Scenarios.best_option (Scenarios.cost_summary (snd x)))
        (map fst framework_wins)).
Proof.
  revert acc. induction all_scenarios as [|x rest IH]; intros acc Hnd Hpos; cbv zeta.
  - cbn [fold_left List.length]. repeat split; try assumption; try lia.
    + auto.
    + intros y [].
  - cbn [fold_left List.length].
    set (acc' := Scenarios.count_win acc x).
    assert (Hnd' : NoDup (map fst acc')) by (apply dict_set_NoDup; exact Hnd).
    destruct (dict_set_count acc
                (Scenarios.best_option (Scenarios.cost_summary (snd x))))
      as [Hsum Hp].
    assert (Hpos' : Forall (fun kv => 1 <= snd kv) acc') by (apply Hp; exact Hpos).
    destruct (IH acc' Hnd' Hpos') as (H1 & H2 & H3 & H4 & H5).
    split; [exact H1|]. split; [exact H2|].
    split; [rewrite H3; unfold acc', Scenarios.count_win; rewrite Hsum; lia|].
    split.
    + intros k Hk. apply H4. unfold acc', Scenarios.count_win.
      apply dict_set_keys. right. exact Hk.
    + intros y [<-|Hy]; [|apply H5; exact Hy].
      apply H4. unfold acc', Scenarios.count_win.
      apply dict_set_keys. left. reflexivity.
Qed.

Local Open Scope Q_scope.

Lemma performance_fold (total_scenarios : Z) (items : list (string * Z))
    (acc : dict Scenarios.FrameworkPerformance) :
  ~ inject_Z total_scenarios == 0 ->
  NoDup (map fst acc ++ map fst items) ->
  fold_left (Scenarios.performance_step total_scenarios) items (Ok acc)
  = Ok (acc ++ map (fun kv =>
                      (fst kv,
                       {| Scenarios.wins := snd kv;
                          Scenarios.win_rate :=
                            inject_Z (snd kv) / inject_Z total_scenarios |}))
                   items).
Proof.
  intros Hnz. revert acc.
  induction items as [|[fw w] items IH]; intros acc Hnd; cbn [fold_left map].
  - rewrite app_nil_r. reflexivity.
  - unfold Scenarios.performance_step at 2. cbn [result_bind].
    rewrite pydiv_nonzero by exact Hnz. cbn [lift result_bind fst snd].
    cbn [map fst] in Hnd.
    rewrite dict_set_fresh.
    + rewrite IH.
      * rewrite <- app_assoc. reflexivity.
      * rewrite map_app, <- app_assoc. exact Hnd.
    + apply NoDup_remove_2 in Hnd. intros Hin. apply Hnd.
      apply in_or_app. left. exact Hin.
Qed.

End Summary.


(** ** All scenarios *)

(** [generate_all_scenarios] never raises, whatever the clock shows: it
    prints one line per scenario of the table, in the order of the table,
    reads the clock nine times, returns the eight analyses under the keys of
    the table, each stamped with its own reading and the result with the
    last one, and its summary lists one framework only, "semantic_kernel",
    with 8 wins and a win rate of 1. *)
Theorem generate_all_scenarios_returns (clock : nat -> string) :
  exists w res,
    Scenarios.generate_all_scenarios clock = (w, Ok res) /\
    Scenarios.stdout w
    = map (fun kv => ("Generating analysis for: " ++ Scenarios.name (snd kv))%string)
        Scenarios.scenarios /\
    Scenarios.readings w = 9%nat /\
    map fst (Scenarios.AllScenarios.scenarios res) = map fst Scenarios.scenarios /\
    map (fun kv => Scenarios.generated_at (snd kv))
      (Scenarios.AllScenarios.scenarios res)
    = map clock (seq 0 8) /\
    Scenarios.AllScenarios.generated_at res = clock 8%nat /\
    exists p,
      Scenarios.framework_performance (Scenarios.AllScenarios.summary res)
      = [("semantic_kernel"%string, p)] /\
      Scenarios.wins p = 8%Z /\ (Scenarios.win_rate p == 1)%Q.
Proof.
  eexists _, _. split; [vm_compute; reflexivity|].
  repeat split.
  eexists. split; [reflexivity|]. split; reflexivity.
Qed.
